(** * XSleep: a shallow embedding of [_xsleep.py]

    The module binds, per host operating system, a native blocking wait
    ([kernel32.Sleep] or libc's [usleep]) together with the unit that wait
    expects, and offers duration wrappers, a randomized sleep, a
    character-paced printer and a handful of introspection queries.

    Python floats are IEEE binary64 numbers: they are modelled by Rocq's
    primitive floats, Python integers by [Z], exceptions by an error
    result, and the effects of the module (standard output, calls of the
    native wait, library loads, draws from the random generator) by an
    explicit state. Durations are floats, as in the signatures of the
    specification; the integer constants the module multiplies and divides
    them by are converted the way Python converts them. Text is ASCII. *)

From Stdlib Require Import ZArith QArith Qround Bool List String Ascii Floats Lia.
From Stdlib Require Import Numbers.DecimalString.
Import ListNotations.

Set Warnings "-inexact-float".

Local Open Scope string_scope.
Local Open Scope Z_scope.

(** ** Exceptions and results *)

Inductive exn_kind : Type :=
| OSError
| NameError
| ValueError
| OverflowError
| ZeroDivisionError
| IndexError.

(** An exception instance: its class and the message it was built with. *)
Record exn : Type := Exn { exn_class : exn_kind; exn_msg : string }.

Inductive result (A : Type) : Type :=
| Ok (a : A)
| Raise (e : exn).

Arguments Ok {A} a.
Arguments Raise {A} e.

Definition rbind {A B} (r : result A) (k : A -> result B) : result B :=
  match r with
  | Ok a => k a
  | Raise e => Raise e
  end.

(** ** Python numbers *)

Module PyNum.

(** [float(n)] for an integer [n] (also the implicit conversion in
    [x * n] and [x / n] with [x] a float): the nearest binary64 value, ties
    to even, and [OverflowError] beyond the range of a float. *)
Definition float_of_int (n : Z) : result float :=
  let f := SF2Prim (binary_normalize prec emax n 0 false) in
  if PrimFloat.is_infinity f
  then Raise (Exn OverflowError "int too large to convert to float")
  else Ok f.

(** [x * n], a float times an integer. *)
Definition mul_int (x : float) (n : Z) : result float :=
  rbind (float_of_int n) (fun y => Ok (x * y)%float).

(** [x / n], a float divided by an integer. *)
Definition truediv_int (x : float) (n : Z) : result float :=
  rbind (float_of_int n) (fun y =>
    if (y =? 0)%float
    then Raise (Exn ZeroDivisionError "float division by zero")
    else Ok (x / y)%float).

(** [int(x)] for a float [x]: the digits of [x] above the binary point,
    with the sign of [x]; infinities and NaN have no integer. *)
Definition int_of_float (x : float) : result Z :=
  match Prim2SF x with
  | S754_zero _ => Ok 0
  | S754_finite s m e =>
      let a := Z.shiftl (Z.pos m) e in
      Ok (if s then - a else a)
  | S754_infinity _ =>
      Raise (Exn OverflowError "cannot convert float infinity to integer")
  | S754_nan =>
      Raise (Exn ValueError "cannot convert float NaN to integer")
  end.

(** The exact rational value of a float, when it is a number. *)
Definition value (x : float) : option Q :=
  match Prim2SF x with
  | S754_zero _ => Some (0 # 1)
  | S754_finite s m e =>
      let n := if s then Z.neg m else Z.pos m in
      Some (if 0 <=? e then (n * 2 ^ e) # 1 else n # Z.to_pos (2 ^ (- e)))
  | S754_infinity _ | S754_nan => None
  end.

(** Truncation of a rational toward zero, and rounding to the nearest
    integer: the two conversions the specification contrasts. *)
Definition truncate (q : Q) : Z := Z.quot (Qnum q) (Z.pos (Qden q)).

Definition round_nearest (q : Q) : Z := Qfloor (q + (1 # 2)).

(** [str(n)] for an integer. *)
Definition str_of_int (n : Z) : string := NilZero.string_of_int (Z.to_int n).

End PyNum.

(** ** The host: everything the module reads from its environment *)

Inductive load_result : Type :=
| Loaded
| LoadError (msg : string).

Record host : Type := Host {
  (** [sys.platform] *)
  sys_platform : string;
  (** [ctypes.CDLL(name)]: the library loads, or [OSError(msg)] *)
  dlopen : string -> load_result;
  (** [os.environ.get(name)] *)
  environ : string -> option string;
  (** [open(path)] and the lines of the file, each with its terminator;
      [Raise] when the file cannot be opened *)
  file_lines : string -> result (list string);
  (** [sysctlbyname(name, &buf, ...)] with an integer buffer: [Some v] when
      the call returns 0 and stores [v], [None] when it returns -1 and
      leaves the buffer alone *)
  sysctlbyname : string -> option Z;
  (** the successive results of [random.random()], each in [0, 1) *)
  random_tape : nat -> float
}.

(** ** Effects *)

(** What reaches standard output: a character, or the characters of
    [repr(x)] for a float [x] (the shortest decimal string that reads back
    as [x], produced by the interpreter). *)
Inductive ochar : Type :=
| Ch (c : ascii)
| ReprOf (x : float).

(** The two native blocking waits. *)
Inductive native : Type :=
| KernelSleep   (* kernel32.Sleep, argtypes [c_ulong] *)
| LibcUsleep.   (* libc usleep, argtypes [c_uint], behind [lambda t: usleep_func(int(t))] *)

Record state : Type := State {
  stdout : list ochar;
  (** calls of the bound [sleep_func], oldest first, with the Python
      integer each one was given *)
  native_calls : list (native * Z);
  (** names handed to [ctypes.CDLL], oldest first *)
  cdll_calls : list string;
  (** number of [random.random()] draws made so far *)
  draws : nat
}.

Definition initial : state := State [] [] [] 0.

(** ctypes converts a Python integer to a 32-bit unsigned C argument
    ([c_ulong] on Windows, [c_uint] elsewhere) by masking, without a range
    check: this is the value the C function receives. *)
Definition c_argument (call : native * Z) : Z := snd call mod 2 ^ 32.

(** A computation: it may raise, and the effects made before it raised
    stay. *)
Definition M (A : Type) : Type := state -> result A * state.

Definition ret {A} (a : A) : M A := fun st => (Ok a, st).

Definition raise {A} (e : exn) : M A := fun st => (Raise e, st).

Definition mbind {A B} (m : M A) (k : A -> M B) : M B :=
  fun st =>
    match m st with
    | (Ok a, st') => k a st'
    | (Raise e, st') => (Raise e, st')
    end.

Definition lift {A} (r : result A) : M A := fun st => (r, st).

Declare Scope py_scope.
Delimit Scope py_scope with py.
Notation "x <- m ;; k" := (mbind m (fun x => k))
  (at level 61, m at next level, right associativity) : py_scope.
Notation "m ;; k" := (mbind m (fun _ => k))
  (at level 61, right associativity) : py_scope.
Local Open Scope py_scope.

Definition chars (s : string) : list ochar := map Ch (list_ascii_of_string s).

Definition newline : string := String (ascii_of_nat 10) "".

(** [sys.stdout.write] of some pieces. *)
Definition write (out : list ochar) : M unit :=
  fun st => (Ok tt, State (stdout st ++ out) (native_calls st) (cdll_calls st) (draws st)).

(** [print(...)]: the pieces, then a newline. *)
Definition print (out : list ochar) : M unit := write (out ++ chars newline).

(** A call of a native wait with a Python integer. *)
Definition call_native (f : native) (t : Z) : M unit :=
  fun st => (Ok tt, State (stdout st) (native_calls st ++ [(f, t)]) (cdll_calls st) (draws st)).

(** [ctypes.CDLL(name)]. *)
Definition CDLL (h : host) (name : string) : M unit :=
  fun st =>
    let st' := State (stdout st) (native_calls st) (cdll_calls st ++ [name]) (draws st) in
    match dlopen h name with
    | Loaded => (Ok tt, st')
    | LoadError msg => (Raise (Exn OSError msg), st')
    end.

(** [try: m  except OSError: handler]. *)
Definition try_except_OSError {A} (m handler : M A) : M A :=
  fun st =>
    match m st with
    | (Raise (Exn OSError _), st') => handler st'
    | r => r
    end.

(** [random.random()]. *)
Definition random_random (h : host) : M float :=
  fun st =>
    (Ok (random_tape h (draws st)),
     State (stdout st) (native_calls st) (cdll_calls st) (S (draws st))).

(** [random.uniform(a, b)], which the standard library defines as
    [a + (b - a) * self.random()]. *)
Definition random_uniform (h : host) (a b : float) : M float :=
  r <- random_random h ;;
  ret (a + (b - a) * r)%float.

(** ** Binding: [_get_sleep_func] and [XSleep.__init__] *)

Definition startswith (s pre : string) : bool := String.prefix pre s.

Record binding : Type := Binding { sleep_func : native; sleep_unit : Z }.

Definition _get_sleep_func (h : host) : M binding :=
  if startswith (sys_platform h) "win32" then
    ret (Binding KernelSleep 1000)
  else if startswith (sys_platform h) "linux" || startswith (sys_platform h) "darwin" then
    let libc_name :=
      if startswith (sys_platform h) "darwin" then "libc.dylib" else "libc.so.6" in
    try_except_OSError (CDLL h libc_name) (CDLL h "/usr/lib/libc.dylib") ;;
    ret (Binding LibcUsleep 1000000)
  else
    raise (Exn OSError "Unsupported operating system.").

(** [XSleep()]: the instance holds what [_get_sleep_func] returned. *)
Definition XSleep (h : host) : M binding := _get_sleep_func h.

(** ** Sleeping *)

Definition unit_name (b : binding) : string :=
  if sleep_unit b =? 1000 then "milliseconds" else "microseconds".

Definition sleeping_message (seconds : float) (time_to_sleep : Z) (b : binding) : list ochar :=
  chars "Sleeping for " ++ [ReprOf seconds] ++ chars " seconds ("
  ++ chars (PyNum.str_of_int time_to_sleep) ++ chars " " ++ chars (unit_name b)
  ++ chars ")...".

Definition _sleep (b : binding) (seconds : float) : M unit :=
  product <- lift (PyNum.mul_int seconds (sleep_unit b)) ;;
  time_to_sleep <- lift (PyNum.int_of_float product) ;;
  print (sleeping_message seconds time_to_sleep b) ;;
  call_native (sleep_func b) time_to_sleep ;;
  print (chars "Awake!").

Definition milliseconds (b : binding) (ms : float) : M unit :=
  secs <- lift (PyNum.truediv_int ms 1000) ;;
  _sleep b secs.

Definition seconds (b : binding) (secs : float) : M unit := _sleep b secs.

Definition minutes (b : binding) (mins : float) : M unit :=
  secs <- lift (PyNum.mul_int mins 60) ;;
  _sleep b secs.

Definition hours (b : binding) (hrs : float) : M unit :=
  secs <- lift (PyNum.mul_int hrs 3600) ;;
  _sleep b secs.

Definition get_random_delay (h : host) (b : binding) (min_seconds max_seconds : float) : M unit :=
  random_delay <- random_uniform h min_seconds max_seconds ;;
  _sleep b random_delay.

Fixpoint for_each_char (body : ascii -> M unit) (message : string) : M unit :=
  match message with
  | EmptyString => ret tt
  | String char rest => body char ;; for_each_char body rest
  end.

Definition print_message_with_delay (b : binding) (message : string) (delay_seconds : float) : M unit :=
  for_each_char (fun char => write [Ch char] ;; _sleep b delay_seconds) message ;;
  print [].

(** The module-level [xsleep(seconds)]: binds afresh, then sleeps. *)
Definition xsleep (h : host) (secs : float) : M unit :=
  b <- _get_sleep_func h ;;
  _sleep b secs.

(** ** Text helpers: [str.strip], [str.split], [int(str)] on ASCII text *)

Module PyStr.

(** The ASCII characters [str.isspace] accepts: tab to carriage return,
    the four separators 28 to 31, and the space. *)
Definition is_space (c : ascii) : bool :=
  let n := nat_of_ascii c in
  ((9 <=? n) && (n <=? 13) || (28 <=? n) && (n <=? 32))%nat.

Fixpoint lstrip (s : string) : string :=
  match s with
  | String c rest => if is_space c then lstrip rest else s
  | EmptyString => EmptyString
  end.

Fixpoint rev_append (s acc : string) : string :=
  match s with
  | EmptyString => acc
  | String c rest => rev_append rest (String c acc)
  end.

Definition rev (s : string) : string := rev_append s EmptyString.

Definition strip (s : string) : string := rev (lstrip (rev (lstrip s))).

(** [s.split()]: the maximal runs of non-space characters. [word] holds
    the current run, reversed. *)
Fixpoint split_from (word : string) (s : string) : list string :=
  let flush := match word with EmptyString => [] | _ => [rev word] end in
  match s with
  | EmptyString => flush
  | String c rest =>
      if is_space c then flush ++ split_from EmptyString rest
      else split_from (String c word) rest
  end.

Definition split (s : string) : list string := split_from EmptyString s.

(** [xs[i]] on a list. *)
Definition index {A} (xs : list A) (i : nat) : result A :=
  match nth_error xs i with
  | Some x => Ok x
  | None => Raise (Exn IndexError "list index out of range")
  end.

Definition digit_of (c : ascii) : option Z :=
  let n := nat_of_ascii c in
  if ((48 <=? n) && (n <=? 57))%nat then Some (Z.of_nat n - 48) else None.

(** Decimal digits with single underscores between them. [after_digit]
    tells whether the previous character was a digit. *)
Fixpoint digits (acc : Z) (after_digit : bool) (s : string) : option Z :=
  match s with
  | EmptyString => if after_digit then Some acc else None
  | String c rest =>
      if Ascii.eqb c "_"%char then
        if after_digit then digits acc false rest else None
      else
        match digit_of c with
        | Some d => digits (10 * acc + d) true rest
        | None => None
        end
  end.

(** [repr(s)] on ASCII text: single quotes unless the text holds a single
    quote and no double one; backslash, the quote in use, tab, newline
    and carriage return escaped by a backslash, other control characters
    written [\xhh]. *)
Definition backslash : ascii := ascii_of_nat 92.
Definition single_quote : ascii := ascii_of_nat 39.
Definition double_quote : ascii := ascii_of_nat 34.

Definition hex_digit (n : nat) : ascii :=
  ascii_of_nat (if (n <? 10)%nat then 48 + n else 87 + n).

Fixpoint has_char (c : ascii) (s : string) : bool :=
  match s with
  | EmptyString => false
  | String d rest => Ascii.eqb c d || has_char c rest
  end.

Definition repr_char (quote c : ascii) : string :=
  let n := nat_of_ascii c in
  let escaped (d : ascii) := String backslash (String d EmptyString) in
  if Ascii.eqb c backslash then escaped backslash
  else if Ascii.eqb c quote then escaped quote
  else if (n =? 9)%nat then escaped "t"%char
  else if (n =? 10)%nat then escaped "n"%char
  else if (n =? 13)%nat then escaped "r"%char
  else if ((n <? 32) || (n =? 127))%nat then
    String backslash
      (String "x"%char
         (String (hex_digit (n / 16)) (String (hex_digit (n mod 16)) EmptyString)))
  else String c EmptyString.

Fixpoint repr_body (quote : ascii) (s : string) : string :=
  match s with
  | EmptyString => String quote EmptyString
  | String c rest => repr_char quote c ++ repr_body quote rest
  end.

Definition repr (s : string) : string :=
  let quote :=
    if has_char single_quote s && negb (has_char double_quote s)
    then double_quote else single_quote in
  String quote (repr_body quote s).

(** [int(s)] for a string: surrounding space, a sign, then the digits.
    The error message shows at most 200 characters of [repr(s)]. *)
Definition int_of_str (s : string) : result Z :=
  let body := strip s in
  let parsed :=
    match body with
    | String "+"%char rest => digits 0 false rest
    | String "-"%char rest => option_map Z.opp (digits 0 false rest)
    | _ => digits 0 false body
    end in
  match parsed with
  | Some n => Ok n
  | None =>
      Raise (Exn ValueError
               ("invalid literal for int() with base 10: " ++ substring 0 200 (repr s)))
  end.

End PyStr.

(** ** Introspection queries *)

(** What a query hands back: [None], an [int], a [float] or a [str]. *)
Inductive pyval : Type :=
| PyNone
| PyInt (n : Z)
| PyFloat (x : float)
| PyStr (s : string).

(** The names bound at module level: the five imports and the three
    definitions. Any other global name that is not a builtin raises
    [NameError] when it is evaluated. *)
Definition module_globals : list string :=
  ["ctypes"; "sys"; "platform"; "random"; "os"; "_get_sleep_func"; "XSleep"; "xsleep"].

Definition global (name : string) : M unit :=
  if existsb (String.eqb name) module_globals then ret tt
  else raise (Exn NameError ("name '" ++ name ++ "' is not defined")).

(** Values of calls the module cannot reach without resolving a name it
    never binds; they complete the branches that follow those names. *)
Record unreached : Type := Unreached {
  time_time : float;              (* time.time() *)
  psutil_boot_time : float;       (* psutil.boot_time() *)
  host_statistics : option Z;     (* free_count when the call returns 0 *)
  global_memory_status : option Z (* ullAvailPhys when the call succeeds *)
}.

Section Queries.

(** [float(s)] for a string is the interpreter's parser: a parameter. *)
Variable float_of_str : string -> result float.
Variable u : unreached.
Variable h : host.

Let platform_is (family : string) : bool := startswith (sys_platform h) family.

Definition get_cpu_count : M pyval :=
  if platform_is "win32" then
    match environ h "NUMBER_OF_PROCESSORS" with
    | Some s => n <- lift (PyStr.int_of_str s) ;; ret (PyInt n)
    | None => ret (PyInt 1)
    end
  else if platform_is "linux" then
    lines <- lift (file_lines h "/proc/cpuinfo") ;;
    let cpu_count :=
      fold_left
        (fun count line =>
           if startswith (PyStr.strip line) "processor" then count + 1 else count)
        lines 0 in
    ret (PyInt cpu_count)
  else if platform_is "darwin" then
    CDLL h "libc.dylib" ;;
    let num_cpu := match sysctlbyname h "hw.ncpu" with Some v => v | None => 0 end in
    ret (PyInt num_cpu)
  else
    ret (PyInt 1).

Definition get_platform : M pyval := ret (PyStr (sys_platform h)).

Definition get_uptime : M pyval :=
  if platform_is "linux" then
    lines <- lift (file_lines h "/proc/uptime") ;;
    let readline := hd "" lines in
    field <- lift (PyStr.index (PyStr.split readline) 0) ;;
    uptime_seconds <- lift (float_of_str field) ;;
    ret (PyFloat uptime_seconds)
  else if platform_is "darwin" then
    CDLL h "libc.dylib" ;;
    match sysctlbyname h "kern.boottime" with
    | Some boottime =>
        global "time" ;;
        now <- lift (PyNum.int_of_float (time_time u)) ;;
        ret (PyInt (now - boottime))
    | None => ret PyNone
    end
  else if platform_is "win32" then
    global "time" ;;
    global "psutil" ;;
    n <- lift (PyNum.int_of_float (time_time u - psutil_boot_time u)) ;;
    ret (PyInt n)
  else
    ret PyNone.

(** The body of [for line in f: if line.startswith('MemAvailable:'): return ...]. *)
Fixpoint first_MemAvailable (lines : list string) : M pyval :=
  match lines with
  | [] => ret PyNone
  | line :: rest =>
      if startswith line "MemAvailable:" then
        field <- lift (PyStr.index (PyStr.split line) 1) ;;
        kb <- lift (PyStr.int_of_str field) ;;
        ret (PyInt (kb * 1024))
      else first_MemAvailable rest
  end.

Definition get_free_memory : M pyval :=
  if platform_is "linux" then
    lines <- lift (file_lines h "/proc/meminfo") ;;
    first_MemAvailable lines
  else if platform_is "darwin" then
    CDLL h "libc.dylib" ;;
    global "vm_statistics" ;;
    match host_statistics u with
    | Some free_count => ret (PyInt (free_count * 4096))
    | None => ret PyNone
    end
  else if platform_is "win32" then
    global "MEMORYSTATUSEX" ;;
    match global_memory_status u with
    | Some ullAvailPhys => ret (PyInt ullAvailPhys)
    | None => ret PyNone
    end
  else
    ret PyNone.

Definition get_username : M pyval :=
  let name := if platform_is "win32" then "USERNAME" else "USER" in
  match environ h name with
  | Some s => ret (PyStr s)
  | None => ret PyNone
  end.

End Queries.

(** ** Vocabulary of the specification *)

(** The platform families of the data model, read off [sys.platform] in
    the order the module tests it. *)
Inductive family : Type := Windows | Linux | Darwin | Unsupported.

Definition family_of (platform : string) : family :=
  if startswith platform "win32" then Windows
  else if startswith platform "linux" then Linux
  else if startswith platform "darwin" then Darwin
  else Unsupported.

(** The table of section 4.1: the multiplier each family's wait expects. *)
Definition table_unit (f : family) : option Z :=
  match f with
  | Windows => Some 1000
  | Linux | Darwin => Some 1000000
  | Unsupported => None
  end.

(** The name the module tries first for the C library, and whether one of
    its two attempts loads. *)
Definition primary_libc (platform : string) : string :=
  if startswith platform "darwin" then "libc.dylib" else "libc.so.6".

Definition loads (h : host) (name : string) : bool :=
  match dlopen h name with Loaded => true | LoadError _ => false end.

Definition libc_resolves (h : host) : bool :=
  loads h (primary_libc (sys_platform h)) || loads h "/usr/lib/libc.dylib".

(** A binding is bound when some construction produced it. *)
Definition bound (b : binding) : Prop :=
  exists h st, fst (XSleep h st) = Ok b.

(** [needle in text]. *)
Definition contains (text needle : string) : bool :=
  match String.index 0 needle text with Some _ => true | None => false end.

(** A draw of [random.random()] lies in [0, 1). *)
Definition unit_interval (r : float) : Prop :=
  (0 <=? r)%float = true /\ (r <? 1)%float = true.

(** What one call of [_sleep] prints around the native wait. *)
Definition notice_before (b : binding) (secs : float) (t : Z) : list ochar :=
  sleeping_message secs t b ++ chars newline.

Definition notice_after : list ochar := chars "Awake!" ++ chars newline.

(** What one turn of the loop of [print_message_with_delay] writes for the
    character [c], when the wait is called with [t]. *)
Definition turn (b : binding) (secs : float) (t : Z) (c : ascii) : list ochar :=
  (Ch c :: notice_before b secs t ++ notice_after)%list.

(** ** Sample hosts *)

Definition no_file : string -> result (list string) :=
  fun path => Raise (Exn OSError ("No such file or directory: " ++ path)).

Definition loader (libs : list string) (name : string) : load_result :=
  if existsb (String.eqb name) libs then Loaded
  else LoadError (name ++ ": cannot open shared object file").

Definition glibc_linux : host :=
  Host "linux" (loader ["libc.so.6"]) (fun _ => None) no_file (fun _ => None)
       (fun _ => 0.5%float).

(** A Linux host whose C library is not named [libc.so.6]. *)
Definition musl_linux : host :=
  Host "linux" (loader []) (fun _ => None) no_file (fun _ => None)
       (fun _ => 0.5%float).

Definition macos : host :=
  Host "darwin" (loader ["libc.dylib"]) (fun _ => None) no_file (fun _ => None)
       (fun _ => 0.5%float).

Definition windows : host :=
  Host "win32" (loader []) (fun _ => None) no_file (fun _ => None)
       (fun _ => 0.5%float).

Definition freebsd : host :=
  Host "freebsd13" (loader ["libc.so.7"]) (fun _ => None) no_file (fun _ => None)
       (fun _ => 0.5%float).

Definition tab : string := String (ascii_of_nat 9) "".

(** A single-core ARM board: its [/proc/cpuinfo] names the CPU under
    [Processor], with a capital, and has no per-core [processor] entry. *)
Definition arm_board : host :=
  Host "linux" (loader ["libc.so.6"]) (fun _ => None)
       (fun path =>
          if String.eqb path "/proc/cpuinfo" then
            Ok [ "Processor" ++ tab ++ ": ARMv6-compatible processor rev 7 (v6l)" ++ newline;
                 "BogoMIPS" ++ tab ++ ": 697.95" ++ newline;
                 "Hardware" ++ tab ++ ": BCM2708" ++ newline ]
          else no_file path)
       (fun _ => None) (fun _ => 0.5%float).

Definition unix_binding : binding := Binding LibcUsleep 1000000.
Definition windows_binding : binding := Binding KernelSleep 1000.

(** ** Process and clock queries *)

(** What the operating system answers to the remaining queries. *)
Record services : Type := Services {
  os_getpid : Z;                        (* os.getpid() *)
  GetCurrentProcessId : Z;              (* the DWORD the Windows call returns *)
  GetTickCount64 : Z;                   (* the 64-bit tick count *)
  (** [clock_gettime(id, &ts)]: [Some (tv_sec, tv_nsec)] when the call
      fills [ts], [None] when it fails and leaves [ts] zeroed *)
  clock_gettime : Z -> option (Z * Z)
}.

(** A foreign function without a declared [restype] returns a C [int]:
    ctypes hands back the low 32 bits of the result, read as signed. *)
Definition c_int_result (v : Z) : Z := (v + 2 ^ 31) mod 2 ^ 32 - 2 ^ 31.

Section Clock.

Variable sv : services.
Variable h : host.

Definition get_pid : M pyval :=
  if startswith (sys_platform h) "win32" then
    ret (PyInt (c_int_result (GetCurrentProcessId sv)))
  else
    ret (PyInt (os_getpid sv)).

Definition get_current_time_ms : M pyval :=
  if startswith (sys_platform h) "win32" then
    ret (PyInt (c_int_result (GetTickCount64 sv)))
  else
    let CLOCK_MONOTONIC := 1 in
    CDLL h "libc.so.6" ;;
    (if startswith (sys_platform h) "darwin" then CDLL h "libc.dylib" else ret tt) ;;
    let '(tv_sec, tv_nsec) :=
      match clock_gettime sv CLOCK_MONOTONIC with
      | Some ts => ts
      | None => (0, 0)
      end in
    ret (PyInt (tv_sec * 1000 + tv_nsec / 1000000)).

End Clock.

(** ** Vocabulary for the further properties *)

(** The test of the loop of [get_cpu_count] on Linux. *)
Definition is_processor_line (line : string) : bool :=
  startswith (PyStr.strip line) "processor".

(** The test of the loop of [get_free_memory] on Linux, and what the loop
    returns from the line that passes it. *)
Definition is_MemAvailable_line (line : string) : bool :=
  startswith line "MemAvailable:".

Definition MemAvailable_bytes (line : string) : result pyval :=
  rbind (PyStr.index (PyStr.split line) 1) (fun field =>
  rbind (PyStr.int_of_str field) (fun kb => Ok (PyInt (kb * 1024)))).

(** A string made of space characters only (the empty string is one). *)
Fixpoint blank (s : string) : bool :=
  match s with
  | EmptyString => true
  | String c rest => PyStr.is_space c && blank rest
  end.

(** A float that is a number: neither an infinity nor NaN. *)
Definition is_number (x : float) : bool :=
  match PyNum.value x with Some _ => true | None => false end.

(** Sample answers: a process id, a tick count and a clock reading. *)
Definition sample_services : services :=
  Services 4242 4242 123456789 (fun _ => Some (5000, 250000000)).

(** A computation that neither prints, nor waits, nor draws. *)
Definition quiet {A} (m : M A) : Prop :=
  forall st,
    stdout (snd (m st)) = stdout st /\
    native_calls (snd (m st)) = native_calls st /\
    draws (snd (m st)) = draws st.

(** A Linux host with its usual pseudo-files, and [USER] set. *)
Definition proc_linux : host :=
  Host "linux" (loader ["libc.so.6"])
       (fun name => if String.eqb name "USER" then Some "alice" else None)
       (fun path =>
          if String.eqb path "/proc/cpuinfo" then
            Ok [ "processor" ++ tab ++ ": 0" ++ newline;
                 "model name" ++ tab ++ ": Example CPU" ++ newline;
                 newline;
                 "processor" ++ tab ++ ": 1" ++ newline;
                 "model name" ++ tab ++ ": Example CPU" ++ newline ]
          else if String.eqb path "/proc/meminfo" then
            Ok [ "MemTotal:       16314516 kB" ++ newline;
                 "MemFree:         1234567 kB" ++ newline;
                 "MemAvailable:    8123456 kB" ++ newline;
                 "Buffers:          123456 kB" ++ newline ]
          else if String.eqb path "/proc/uptime" then
            Ok [ "35017.22 135791.10" ++ newline ]
          else no_file path)
       (fun _ => None) (fun _ => 0.5%float).

(** The same host before [MemAvailable] existed, with an empty uptime
    file. *)
Definition old_linux : host :=
  Host "linux" (loader ["libc.so.6"]) (fun _ => None)
       (fun path =>
          if String.eqb path "/proc/meminfo" then
            Ok [ "MemTotal:       16314516 kB" ++ newline;
                 "MemFree:         1234567 kB" ++ newline ]
          else if String.eqb path "/proc/uptime" then Ok []
          else no_file path)
       (fun _ => None) (fun _ => 0.5%float).

(** Answers for the calls the module never reaches. *)
Definition no_answers : unreached := Unreached 0 0 None None.

(** The first word of a line: its leading run of non-space characters,
    once the space before it is dropped. *)
Fixpoint take_word (s : string) : string :=
  match s with
  | EmptyString => EmptyString
  | String c rest => if PyStr.is_space c then EmptyString else String c (take_word rest)
  end.

Definition first_word (s : string) : string := take_word (PyStr.lstrip s).

(** Negative zero, the one number a degenerate random range does not
    give back. *)
Definition is_neg_zero (x : float) : bool :=
  match Prim2SF x with S754_zero true => true | _ => false end.

(** * Properties *)

(** ** Platform tests exclude each other *)

Lemma prefix_head (a b : ascii) (s t : string) :
  String.prefix (String a s) (String b t) = true -> a = b.
Proof.
  simpl. destruct (ascii_dec a b) as [e | n]; [intros _; exact e | discriminate].
Qed.

Lemma startswith_linux_not_win32 (p : string) :
  startswith p "linux" = true -> startswith p "win32" = false.
Proof.
  unfold startswith. destruct p as [| c p]; [discriminate |].
  intros H. apply prefix_head in H. subst c. reflexivity.
Qed.

Lemma startswith_darwin_not_win32 (p : string) :
  startswith p "darwin" = true -> startswith p "win32" = false.
Proof.
  unfold startswith. destruct p as [| c p]; [discriminate |].
  intros H. apply prefix_head in H. subst c. reflexivity.
Qed.

Lemma startswith_linux_not_darwin (p : string) :
  startswith p "linux" = true -> startswith p "darwin" = false.
Proof.
  unfold startswith. destruct p as [| c p]; [discriminate |].
  intros H. apply prefix_head in H. subst c. reflexivity.
Qed.

(** ** Running the monad *)

Lemma mbind_lift_ok {A B} (a : A) (k : A -> M B) (st : state) :
  mbind (lift (Ok a)) k st = k a st.
Proof. reflexivity. Qed.

Lemma mbind_ok {A B} (m : M A) (k : A -> M B) (st st' : state) (a : A) :
  m st = (Ok a, st') -> mbind m k st = k a st'.
Proof. intros H. unfold mbind. rewrite H. reflexivity. Qed.

Lemma mbind_raise {A B} (m : M A) (k : A -> M B) (st st' : state) (e : exn) :
  m st = (Raise e, st') -> mbind m k st = (Raise e, st').
Proof. intros H. unfold mbind. rewrite H. reflexivity. Qed.

(** ** The two bindings *)

Lemma XSleep_cases (h : host) (st : state) (b : binding) :
  fst (XSleep h st) = Ok b -> b = windows_binding \/ b = unix_binding.
Proof.
  unfold XSleep, _get_sleep_func.
  destruct (startswith (sys_platform h) "win32").
  - simpl. intros [= <-]. now left.
  - destruct (startswith (sys_platform h) "linux" || startswith (sys_platform h) "darwin").
    + unfold mbind, try_except_OSError, CDLL, ret.
      destruct (dlopen h _); simpl.
      * intros [= <-]. now right.
      * destruct (dlopen h "/usr/lib/libc.dylib"); simpl.
        -- intros [= <-]. now right.
        -- discriminate.
    + discriminate.
Qed.

Lemma bound_cases (b : binding) :
  bound b -> b = windows_binding \/ b = unix_binding.
Proof. intros (h & st & H). exact (XSleep_cases h st b H). Qed.

Lemma bound_windows : bound windows_binding.
Proof. exists windows, initial. reflexivity. Qed.

Lemma bound_unix : bound unix_binding.
Proof. exists glibc_linux, initial. reflexivity. Qed.

Lemma bound_unit_float (b : binding) :
  bound b ->
  exists y, PyNum.float_of_int (sleep_unit b) = Ok y /\ (0 <? y)%float = true.
Proof.
  intros H.
  destruct (bound_cases b H) as [-> | ->]; eexists; split; vm_compute; reflexivity.
Qed.

(** ** [int(x)] truncates *)

Lemma int_of_float_truncate (x : float) (q : Q) :
  PyNum.value x = Some q -> PyNum.int_of_float x = Ok (PyNum.truncate q).
Proof.
  unfold PyNum.value, PyNum.int_of_float, PyNum.truncate.
  destruct (Prim2SF x) as [s | s | | s m e]; try discriminate.
  - intros [= <-]. reflexivity.
  - destruct (Z.leb_spec 0 e) as [He | He]; intros [= <-]; simpl Qnum; simpl Qden.
    + rewrite Z.quot_1_r, Z.shiftl_mul_pow2 by assumption.
      destruct s; [rewrite <- Pos2Z.opp_pos, Z.mul_opp_l |]; reflexivity.
    + assert (Hpow : 0 < 2 ^ (- e)) by (apply Z.pow_pos_nonneg; lia).
      rewrite Z2Pos.id by assumption.
      rewrite Z.shiftl_div_pow2 by lia.
      destruct s.
      * rewrite <- Pos2Z.opp_pos, Z.quot_opp_l by lia.
        rewrite Z.quot_div_nonneg by lia. reflexivity.
      * rewrite Z.quot_div_nonneg by lia. reflexivity.
Qed.

Lemma truncate_nonneg_floor (q : Q) :
  (0 <= q)%Q -> PyNum.truncate q = Qfloor q.
Proof.
  destruct q as [n d]. unfold Qle, PyNum.truncate, Qfloor. simpl.
  intros H. apply Z.quot_div_nonneg; lia.
Qed.

Lemma truncate_nonneg_bounds (q : Q) :
  (0 <= q)%Q ->
  (inject_Z (PyNum.truncate q) <= q)%Q /\ (q < inject_Z (PyNum.truncate q + 1))%Q.
Proof.
  intros H. rewrite (truncate_nonneg_floor q H).
  split; [apply Qfloor_le | apply Qlt_floor].
Qed.

(** ** The sign of a product *)

Lemma binary_round_aux_sign (sx : bool) (mx ex : Z) (lx : location) :
  match binary_round_aux prec emax sx mx ex lx with
  | S754_finite s _ _ => s = sx
  | _ => True
  end.
Proof.
  unfold binary_round_aux.
  destruct (shr_fexp prec emax mx ex lx) as [mrs e].
  destruct (shr_fexp prec emax _ e loc_Exact) as [mrs' e'].
  destruct (shr_m mrs'); auto.
  destruct (Z.leb e' (emax - prec)); auto.
Qed.

Lemma value_of_positive (x : float) (m : positive) (e : Z) (q : Q) :
  Prim2SF x = S754_finite false m e -> PyNum.value x = Some q -> (0 <= q)%Q.
Proof.
  unfold PyNum.value. intros ->.
  assert (H0 : 0 <= Z.pos m * 2 ^ e)
    by (apply Z.mul_nonneg_nonneg; [lia | apply Z.pow_nonneg; lia]).
  destruct (0 <=? e) eqn:He; intros Hq; inversion Hq; subst q; clear Hq.
  - change (0 * 1 <= Z.pos m * 2 ^ e * 1). lia.
  - change (0 * Z.pos (Z.to_pos (2 ^ (- e))) <= Z.pos m * 1). lia.
Qed.

Lemma value_of_zero (x : float) (s : bool) (q : Q) :
  Prim2SF x = S754_zero s -> PyNum.value x = Some q -> (0 <= q)%Q.
Proof.
  unfold PyNum.value. intros ->. intros [= <-]. unfold Qle. cbn. lia.
Qed.

Ltac no_value Hmul :=
  let Hv := fresh "Hv" in
  intros Hv; unfold PyNum.value in Hv; rewrite Hmul in Hv; discriminate.

(** A non-negative float times a positive one is, when a number,
    non-negative: rounding keeps the sign. *)
Lemma nonneg_product_value (secs y : float) (q : Q) :
  (0 <=? secs)%float = true -> (0 <? y)%float = true ->
  PyNum.value (secs * y) = Some q -> (0 <= q)%Q.
Proof.
  intros Hs Hy. rewrite leb_spec in Hs. rewrite ltb_spec in Hy.
  change (Prim2SF 0) with (S754_zero false) in Hs, Hy.
  pose proof (mul_spec secs y) as Hmul.
  destruct (Prim2SF secs) as [ss | ss | | ss ms es];
    destruct (Prim2SF y) as [sy | sy | | sy my ey];
    try discriminate; cbn [SF64mul SFmul] in Hmul.
  all: try no_value Hmul.
  all: try (apply (value_of_zero _ _ _ Hmul)).
  destruct ss; [discriminate |]. destruct sy; [discriminate |].
  cbn [xorb] in Hmul.
  pose proof (binary_round_aux_sign false (Z.pos (ms * my)) (es + ey) loc_Exact) as Hsign.
  destruct (binary_round_aux prec emax false (Z.pos (ms * my)) (es + ey) loc_Exact)
    as [s | s | | s m e].
  - apply (value_of_zero _ _ _ Hmul).
  - no_value Hmul.
  - no_value Hmul.
  - subst s. apply (value_of_positive _ _ _ _ Hmul).
Qed.

(** ** One call of [_sleep] *)

Lemma _sleep_run (b : binding) (secs product : float) (t : Z) (st : state) :
  PyNum.mul_int secs (sleep_unit b) = Ok product ->
  PyNum.int_of_float product = Ok t ->
  _sleep b secs st =
    (Ok tt,
     State (stdout st ++ notice_before b secs t ++ notice_after)
           (native_calls st ++ [(sleep_func b, t)])
           (cdll_calls st) (draws st)).
Proof.
  intros Hm Hi. unfold _sleep. rewrite Hm, mbind_lift_ok, Hi, mbind_lift_ok.
  unfold mbind, print, write, call_native, notice_before, notice_after.
  cbn [stdout native_calls cdll_calls draws].
  rewrite <- !app_assoc. reflexivity.
Qed.

Lemma _sleep_raises_before_effects (b : binding) (secs product : float) (e : exn) (st : state) :
  PyNum.mul_int secs (sleep_unit b) = Ok product ->
  PyNum.int_of_float product = Raise e ->
  _sleep b secs st = (Raise e, st).
Proof.
  intros Hm Hi. unfold _sleep. rewrite Hm, mbind_lift_ok, Hi. reflexivity.
Qed.

Lemma int_of_float_no_value (x : float) :
  PyNum.value x = None ->
  exists e, PyNum.int_of_float x = Raise e /\
            (exn_class e = OverflowError \/ exn_class e = ValueError).
Proof.
  unfold PyNum.value, PyNum.int_of_float.
  destruct (Prim2SF x); try discriminate; intros _; eexists; split;
    try reflexivity; cbn; auto.
Qed.

Lemma bound_product (b : binding) (secs : float) :
  bound b ->
  exists y, (0 <? y)%float = true /\
            PyNum.mul_int secs (sleep_unit b) = Ok (secs * y)%float.
Proof.
  intros Hb. destruct (bound_unit_float b Hb) as (y & Hy & Hpos).
  exists y. split; [exact Hpos |]. unfold PyNum.mul_int. rewrite Hy. reflexivity.
Qed.

Lemma floor_lt_iff (q : Q) (z : Z) : Qfloor q < z <-> (q < inject_Z z)%Q.
Proof.
  split; intros H.
  - apply Qlt_le_trans with (inject_Z (Qfloor q + 1)); [apply Qlt_floor |].
    rewrite <- Zle_Qle. lia.
  - rewrite Zlt_Qlt. apply Qle_lt_trans with q; [apply Qfloor_le | exact H].
Qed.

(** C9, as stated, fails: 1e305 seconds is a non-negative duration and
    the microsecond binding is bound, yet [_sleep] raises [OverflowError]
    (the product is infinite and has no integer truncation) and makes no
    native call at all. *)
Lemma C9_counterexample :
  (0 <=? 1e305)%float = true /\
  fst (_sleep unix_binding 1e305 initial)
    = Raise (Exn OverflowError "cannot convert float infinity to integer") /\
  native_calls (snd (_sleep unix_binding 1e305 initial)) = [].
Proof. repeat apply conj; vm_compute; reflexivity. Qed.

(** C9, amended. For every non-negative duration on a bound binding the
    product [seconds * sleep_unit] is computed as a float. When it is a
    number, [_sleep] succeeds and calls the bound sleep function exactly
    once, with the integer [t] obtained by truncating (not rounding) the
    product, [t <= product < t + 1]; when moreover the product is below
    2^32, [t] is exactly what the native wait receives. When the product
    is not a number, [int()] raises before any effect and no native call
    is made. For instance 0.0019 s on the millisecond binding makes the
    product 1.9, the native argument is 1, and rounding would have given
    2. *)
Theorem C9_sleep_truncates_finite_product :
  (forall (b : binding) (secs : float) (st : state),
      bound b ->
      (0 <=? secs)%float = true ->
      exists product,
        PyNum.mul_int secs (sleep_unit b) = Ok product /\
        match PyNum.value product with
        | Some q =>
            let t := PyNum.truncate q in
            fst (_sleep b secs st) = Ok tt /\
            native_calls (snd (_sleep b secs st))
              = (native_calls st ++ [(sleep_func b, t)])%list /\
            (inject_Z t <= q)%Q /\ (q < inject_Z (t + 1))%Q /\
            ((q < inject_Z (2 ^ 32))%Q -> c_argument (sleep_func b, t) = t)
        | None =>
            exists e, _sleep b secs st = (Raise e, st) /\
                      (exn_class e = OverflowError \/ exn_class e = ValueError)
        end) /\
  (PyNum.mul_int 0.0019 1000 = Ok 1.9%float /\
   native_calls (snd (_sleep windows_binding 0.0019 initial)) = [(KernelSleep, 1)] /\
   c_argument (KernelSleep, 1) = 1 /\
   option_map PyNum.round_nearest (PyNum.value 1.9) = Some 2).
Proof.
  split.
  - intros b secs st Hb Hs. destruct (bound_product b secs Hb) as (y & Hpos & Hm).
    exists (secs * y)%float. split; [exact Hm |].
    destruct (PyNum.value (secs * y)) as [q |] eqn:Hq.
    + pose proof (nonneg_product_value secs y q Hs Hpos Hq) as Hq0.
      cbv zeta.
      rewrite (_sleep_run b secs _ (PyNum.truncate q) st Hm
                 (int_of_float_truncate _ q Hq)).
      split; [reflexivity | split; [reflexivity |]].
      destruct (truncate_nonneg_bounds q Hq0) as [Hlo Hhi].
      split; [exact Hlo | split; [exact Hhi |]].
      intros Hlt. unfold c_argument. cbn [snd]. apply Z.mod_small.
      rewrite (truncate_nonneg_floor q Hq0). split.
      * rewrite <- (Qfloor_Z 0). apply Qfloor_resp_le. exact Hq0.
      * apply floor_lt_iff. exact Hlt.
    + destruct (int_of_float_no_value _ Hq) as (e & Hi & Hc).
      exists e. split; [| exact Hc].
      exact (_sleep_raises_before_effects b secs _ e st Hm Hi).
  - repeat apply conj; vm_compute; reflexivity.
Qed.

(** One and a half seconds on the microsecond binding. *)
Lemma C9_witness :
  exists product,
    PyNum.mul_int 1.5 (sleep_unit unix_binding) = Ok product /\
    match PyNum.value product with
    | Some q =>
        let t := PyNum.truncate q in
        fst (_sleep unix_binding 1.5 initial) = Ok tt /\
        native_calls (snd (_sleep unix_binding 1.5 initial))
          = (native_calls initial ++ [(sleep_func unix_binding, t)])%list /\
        (inject_Z t <= q)%Q /\ (q < inject_Z (t + 1))%Q /\
        ((q < inject_Z (2 ^ 32))%Q -> c_argument (sleep_func unix_binding, t) = t)
    | None =>
        exists e, _sleep unix_binding 1.5 initial = (Raise e, initial) /\
                  (exn_class e = OverflowError \/ exn_class e = ValueError)
    end.
Proof.
  exact (proj1 C9_sleep_truncates_finite_product unix_binding 1.5%float initial
           bound_unix eq_refl).
Defined.

(** ** Binding *)

Lemma family_of_cases (p : string) :
  match family_of p with
  | Windows => startswith p "win32" = true
  | Linux =>
      startswith p "win32" = false /\ startswith p "linux" = true /\
      startswith p "darwin" = false
  | Darwin =>
      startswith p "win32" = false /\ startswith p "linux" = false /\
      startswith p "darwin" = true
  | Unsupported =>
      startswith p "win32" = false /\ startswith p "linux" = false /\
      startswith p "darwin" = false
  end.
Proof.
  unfold family_of.
  destruct (startswith p "win32") eqn:Hw; [reflexivity |].
  destruct (startswith p "linux") eqn:Hl.
  - repeat split. now apply startswith_linux_not_darwin.
  - destruct (startswith p "darwin"); repeat split.
Qed.

(** The two loads of the Unix branch, run from any state. *)
Lemma load_libc_run (h : host) (name : string) (st : state) :
  try_except_OSError (CDLL h name) (CDLL h "/usr/lib/libc.dylib") st =
    match dlopen h name with
    | Loaded =>
        (Ok tt, State (stdout st) (native_calls st) (cdll_calls st ++ [name]) (draws st))
    | LoadError _ =>
        (match dlopen h "/usr/lib/libc.dylib" with
         | Loaded => Ok tt
         | LoadError msg => Raise (Exn OSError msg)
         end,
         State (stdout st) (native_calls st)
               (cdll_calls st ++ [name; "/usr/lib/libc.dylib"]) (draws st))
    end.
Proof.
  unfold try_except_OSError, CDLL.
  destruct (dlopen h name); [reflexivity |].
  cbn [stdout native_calls cdll_calls draws].
  rewrite <- app_assoc.
  destruct (dlopen h "/usr/lib/libc.dylib"); reflexivity.
Qed.

Lemma _get_sleep_func_unix (h : host) (st : state) :
  startswith (sys_platform h) "win32" = false ->
  startswith (sys_platform h) "linux" || startswith (sys_platform h) "darwin" = true ->
  _get_sleep_func h st =
    let '(r, st') :=
      try_except_OSError (CDLL h (primary_libc (sys_platform h)))
                         (CDLL h "/usr/lib/libc.dylib") st in
    (match r with Ok _ => Ok unix_binding | Raise e => Raise e end, st').
Proof.
  intros Hw Hu. unfold _get_sleep_func, primary_libc. rewrite Hw, Hu.
  unfold mbind.
  destruct (try_except_OSError _ _ st) as [[[] | e] st']; reflexivity.
Qed.

(** Construction, family by family. *)
Lemma XSleep_by_family (h : host) (st : state) :
  match family_of (sys_platform h) with
  | Windows => fst (XSleep h st) = Ok (Binding KernelSleep 1000)
  | Linux | Darwin =>
      (forall b, fst (XSleep h st) = Ok b -> b = Binding LibcUsleep 1000000) /\
      (libc_resolves h = true -> fst (XSleep h st) = Ok (Binding LibcUsleep 1000000))
  | Unsupported => exists e, fst (XSleep h st) = Raise e
  end.
Proof.
  pose proof (family_of_cases (sys_platform h)) as Hf.
  assert (Hunix :
    startswith (sys_platform h) "win32" = false ->
    startswith (sys_platform h) "linux" || startswith (sys_platform h) "darwin" = true ->
    (forall b, fst (XSleep h st) = Ok b -> b = Binding LibcUsleep 1000000) /\
    (libc_resolves h = true -> fst (XSleep h st) = Ok (Binding LibcUsleep 1000000))).
  { intros Hw Hu. unfold XSleep, libc_resolves, loads.
    rewrite (_get_sleep_func_unix h st Hw Hu), load_libc_run.
    destruct (dlopen h (primary_libc (sys_platform h))); cbn.
    - split; [intros b [= <-]; reflexivity | reflexivity].
    - destruct (dlopen h "/usr/lib/libc.dylib"); cbn.
      + split; [intros b [= <-]; reflexivity | reflexivity].
      + split; discriminate. }
  destruct (family_of (sys_platform h)).
  - unfold XSleep, _get_sleep_func. rewrite Hf. reflexivity.
  - destruct Hf as (Hw & Hl & _). apply Hunix; [exact Hw | rewrite Hl; reflexivity].
  - destruct Hf as (Hw & _ & Hd). apply Hunix; [exact Hw | rewrite Hd; apply orb_true_r].
  - destruct Hf as (Hw & Hl & Hd). unfold XSleep, _get_sleep_func.
    rewrite Hw, Hl, Hd. cbn. eexists; reflexivity.
Qed.

(** C1. Construction follows the table of section 4.1: every binding it
    yields carries the multiplier the table gives for the family of the
    host. On Windows it yields the millisecond binding (multiplier 1000).
    On Linux and Darwin every binding it yields is the microsecond binding
    (multiplier 1000000), and it yields one whenever the C library loads
    under one of the two names tried. On every other platform it raises
    and yields no binding. *)
Theorem C1_binding_follows_table (h : host) (st : state) :
  (forall b, fst (XSleep h st) = Ok b ->
             table_unit (family_of (sys_platform h)) = Some (sleep_unit b)) /\
  match family_of (sys_platform h) with
  | Windows =>
      fst (XSleep h st) = Ok (Binding KernelSleep 1000) /\
      unit_name (Binding KernelSleep 1000) = "milliseconds"
  | Linux | Darwin =>
      (forall b, fst (XSleep h st) = Ok b ->
                 b = Binding LibcUsleep 1000000 /\ unit_name b = "microseconds") /\
      (libc_resolves h = true -> fst (XSleep h st) = Ok (Binding LibcUsleep 1000000))
  | Unsupported =>
      (exists e, fst (XSleep h st) = Raise e) /\
      (forall b, fst (XSleep h st) <> Ok b)
  end.
Proof.
  pose proof (XSleep_by_family h st) as H.
  destruct (family_of (sys_platform h)); cbn [table_unit].
  - rewrite H. split; [intros b [= <-]; reflexivity | split; reflexivity].
  - destruct H as [Hb Hr]. split.
    + intros b Hok. rewrite (Hb b Hok). reflexivity.
    + split; [intros b Hok; rewrite (Hb b Hok); split; reflexivity | exact Hr].
  - destruct H as [Hb Hr]. split.
    + intros b Hok. rewrite (Hb b Hok). reflexivity.
    + split; [intros b Hok; rewrite (Hb b Hok); split; reflexivity | exact Hr].
  - destruct H as [e He]. rewrite He. split; [discriminate |].
    split; [exists e; reflexivity | discriminate].
Qed.

(** On a Linux host with glibc the microsecond binding is produced. *)
Lemma C1_witness : fst (XSleep glibc_linux initial) = Ok (Binding LibcUsleep 1000000).
Proof.
  exact (proj2 (proj2 (C1_binding_follows_table glibc_linux initial)) eq_refl).
Defined.

(** C10. The fallback is not specific to Darwin. On Linux, when
    [libc.so.6] does not load (and likewise on Darwin when [libc.dylib]
    does not), construction next tries [/usr/lib/libc.dylib]; it succeeds
    if that loads, and otherwise propagates the [OSError] of that second
    load unchanged. *)
Theorem C10_fallback_path_on_linux (h : host) (st : state) (name msg : string) :
  startswith (sys_platform h) "linux" = true /\ name = "libc.so.6" \/
  startswith (sys_platform h) "darwin" = true /\ name = "libc.dylib" ->
  dlopen h name = LoadError msg ->
  cdll_calls (snd (XSleep h st))
    = (cdll_calls st ++ [name; "/usr/lib/libc.dylib"])%list /\
  (forall msg', dlopen h "/usr/lib/libc.dylib" = LoadError msg' ->
                fst (XSleep h st) = Raise (Exn OSError msg')) /\
  (dlopen h "/usr/lib/libc.dylib" = Loaded ->
   fst (XSleep h st) = Ok (Binding LibcUsleep 1000000)).
Proof.
  intros Hp Hfail.
  assert (Hw : startswith (sys_platform h) "win32" = false).
  { destruct Hp as [[Hl _] | [Hd _]];
      [now apply startswith_linux_not_win32 | now apply startswith_darwin_not_win32]. }
  assert (Hu : startswith (sys_platform h) "linux" || startswith (sys_platform h) "darwin" = true).
  { destruct Hp as [[-> _] | [-> _]]; [reflexivity | apply orb_true_r]. }
  assert (Hn : primary_libc (sys_platform h) = name).
  { unfold primary_libc. destruct Hp as [[Hl ->] | [-> ->]]; [| reflexivity].
    rewrite (startswith_linux_not_darwin _ Hl). reflexivity. }
  unfold XSleep. rewrite (_get_sleep_func_unix h st Hw Hu), Hn, load_libc_run, Hfail.
  destruct (dlopen h "/usr/lib/libc.dylib"); cbn.
  - split; [reflexivity | split; [discriminate | reflexivity]].
  - split; [reflexivity | split; [intros msg' [= <-]; reflexivity | discriminate]].
Qed.

(** A Linux host without [libc.so.6]: both names are tried, and the error
    of the second load is what construction raises. *)
Lemma C10_witness :
  cdll_calls (snd (XSleep musl_linux initial)) = ["libc.so.6"; "/usr/lib/libc.dylib"] /\
  fst (XSleep musl_linux initial)
    = Raise (Exn OSError "/usr/lib/libc.dylib: cannot open shared object file").
Proof.
  destruct (C10_fallback_path_on_linux musl_linux initial "libc.so.6"
              "libc.so.6: cannot open shared object file"
              (or_introl (conj eq_refl eq_refl)) eq_refl) as (H1 & H2 & _).
  split; [exact H1 | exact (H2 _ eq_refl)].
Defined.

(** C8, as stated, fails: on the unsupported platform [freebsd13] the
    error raised by construction does not mention [freebsd13]. *)
Lemma C8_counterexample :
  exists e, fst (XSleep freebsd initial) = Raise e /\
            contains (exn_msg e) (sys_platform freebsd) = false.
Proof. eexists. split; reflexivity. Qed.

(** C8, amended. On every unsupported platform construction raises
    [OSError] with the fixed message "Unsupported operating system.",
    whatever the platform identifier is, and has no other effect. *)
Theorem C8_unsupported_error_is_fixed (h : host) (st : state) :
  family_of (sys_platform h) = Unsupported ->
  XSleep h st = (Raise (Exn OSError "Unsupported operating system."), st).
Proof.
  intros Hf. pose proof (family_of_cases (sys_platform h)) as Hc.
  rewrite Hf in Hc. destruct Hc as (Hw & Hl & Hd).
  unfold XSleep, _get_sleep_func. rewrite Hw, Hl, Hd. reflexivity.
Qed.

Lemma C8_witness :
  XSleep freebsd initial = (Raise (Exn OSError "Unsupported operating system."), initial).
Proof. exact (C8_unsupported_error_is_fixed freebsd initial eq_refl). Defined.

(** ** Duration wrappers *)

Lemma float_of_int_1000 : PyNum.float_of_int 1000 = Ok 1000%float.
Proof. vm_compute. reflexivity. Qed.

Lemma float_of_int_60 : PyNum.float_of_int 60 = Ok 60%float.
Proof. vm_compute. reflexivity. Qed.

Lemma float_of_int_3600 : PyNum.float_of_int 3600 = Ok 3600%float.
Proof. vm_compute. reflexivity. Qed.

Lemma truediv_int_1000 (x : float) : PyNum.truediv_int x 1000 = Ok (x / 1000)%float.
Proof. unfold PyNum.truediv_int. rewrite float_of_int_1000. reflexivity. Qed.

Lemma mul_int_60 (x : float) : PyNum.mul_int x 60 = Ok (x * 60)%float.
Proof. unfold PyNum.mul_int. rewrite float_of_int_60. reflexivity. Qed.

Lemma mul_int_3600 (x : float) : PyNum.mul_int x 3600 = Ok (x * 3600)%float.
Proof. unfold PyNum.mul_int. rewrite float_of_int_3600. reflexivity. Qed.

(** C6. Each wrapper is the internal primitive applied to the converted
    duration: [v / 1000] for milliseconds, [v] for seconds, [v * 60] for
    minutes, [v * 3600] for hours, in float arithmetic and with the same
    outcome and effects from every state. One minute and sixty seconds
    are the same call: the same native argument on every binding. *)
Theorem C6_wrappers_delegate (b : binding) (v : float) (st : state) :
  milliseconds b v st = _sleep b (v / 1000)%float st /\
  seconds b v st = _sleep b v st /\
  minutes b v st = _sleep b (v * 60)%float st /\
  hours b v st = _sleep b (v * 3600)%float st /\
  minutes b 1 st = seconds b 60 st /\
  native_calls (snd (minutes b 1 st)) = native_calls (snd (seconds b 60 st)).
Proof.
  assert (Hmin : forall x, minutes b x st = _sleep b (x * 60)%float st).
  { intros x. unfold minutes. rewrite mul_int_60. reflexivity. }
  split; [unfold milliseconds; rewrite truediv_int_1000; reflexivity |].
  split; [reflexivity |].
  split; [apply Hmin |].
  split; [unfold hours; rewrite mul_int_3600; reflexivity |].
  assert (H1 : minutes b 1 st = seconds b 60 st) by (rewrite Hmin; reflexivity).
  split; [exact H1 | rewrite H1; reflexivity].
Qed.

(** Two hours on the microsecond binding: the integer handed to the wait
    is 7200000000, of which the C function receives the low 32 bits. *)
Remark hours_2_c_argument :
  native_calls (snd (hours unix_binding 2 initial)) = [(LibcUsleep, 7200000000)] /\
  map c_argument (native_calls (snd (hours unix_binding 2 initial))) = [2905032704].
Proof. split; vm_compute; reflexivity. Qed.

(** ** Randomized sleep *)

Lemma _sleep_no_product (b : binding) (secs : float) (e : exn) (st : state) :
  PyNum.mul_int secs (sleep_unit b) = Raise e ->
  _sleep b secs st = (Raise e, st).
Proof. intros Hm. unfold _sleep. rewrite Hm. reflexivity. Qed.

Lemma get_random_delay_run (h : host) (b : binding) (lo hi : float) (st : state) :
  get_random_delay h b lo hi st =
    _sleep b (lo + (hi - lo) * random_tape h (draws st))%float
           (State (stdout st) (native_calls st) (cdll_calls st) (S (draws st))).
Proof. reflexivity. Qed.

(** A degenerate range draws its bound: [1 + (1 - 1) * r] is [1] for every
    [r] in [0, 1). *)
Lemma uniform_1_1 (r : float) :
  unit_interval r -> (1 + (1 - 1) * r)%float = 1%float.
Proof.
  intros [Hle Hlt]. rewrite leb_spec in Hle. rewrite ltb_spec in Hlt.
  apply Prim2SF_inj. rewrite add_spec, mul_spec.
  change (Prim2SF (1 - 1)) with (S754_zero false).
  destruct (Prim2SF r) as [s | [|] | | s m e].
  - reflexivity.
  - vm_compute in Hle. discriminate.
  - vm_compute in Hlt. discriminate.
  - vm_compute in Hle. discriminate.
  - reflexivity.
Qed.

(** [_sleep] neither reads nor changes the count of random draws. *)
Lemma _sleep_frame_draws (b : binding) (secs : float) (st : state) (n : nat) :
  let st_n := State (stdout st) (native_calls st) (cdll_calls st) n in
  fst (_sleep b secs st_n) = fst (_sleep b secs st) /\
  stdout (snd (_sleep b secs st_n)) = stdout (snd (_sleep b secs st)) /\
  native_calls (snd (_sleep b secs st_n)) = native_calls (snd (_sleep b secs st)) /\
  cdll_calls (snd (_sleep b secs st_n)) = cdll_calls (snd (_sleep b secs st)) /\
  draws (snd (_sleep b secs st_n)) = n.
Proof.
  intros st_n.
  destruct (PyNum.mul_int secs (sleep_unit b)) as [product | e] eqn:Hm.
  - destruct (PyNum.int_of_float product) as [t | e] eqn:Hi.
    + rewrite !(_sleep_run b secs product t _ Hm Hi). repeat split.
    + rewrite !(_sleep_raises_before_effects b secs product e _ Hm Hi). repeat split.
  - rewrite !(_sleep_no_product b secs e _ Hm). repeat split.
Qed.

(** C7. With the degenerate range (1, 1) the drawn duration is exactly
    one second, for every draw in [0, 1), and [get_random_delay] then has
    the outcome of [seconds(1)], prints the same text and makes the same
    native call; the only difference is the draw it took from the random
    generator. *)
Theorem C7_degenerate_range_is_one_second (h : host) (b : binding) (st : state) :
  unit_interval (random_tape h (draws st)) ->
  fst (random_uniform h 1 1 st) = Ok 1%float /\
  fst (get_random_delay h b 1 1 st) = fst (seconds b 1 st) /\
  stdout (snd (get_random_delay h b 1 1 st)) = stdout (snd (seconds b 1 st)) /\
  native_calls (snd (get_random_delay h b 1 1 st)) = native_calls (snd (seconds b 1 st)) /\
  cdll_calls (snd (get_random_delay h b 1 1 st)) = cdll_calls (snd (seconds b 1 st)) /\
  draws (snd (get_random_delay h b 1 1 st)) = S (draws st).
Proof.
  intros Hr. split.
  - unfold random_uniform, mbind, random_random, ret. cbn [fst].
    rewrite (uniform_1_1 _ Hr). reflexivity.
  - rewrite get_random_delay_run, (uniform_1_1 _ Hr). unfold seconds.
    apply (_sleep_frame_draws b 1%float st (S (draws st))).
Qed.

Lemma C7_witness :
  fst (get_random_delay glibc_linux unix_binding 1 1 initial)
    = fst (seconds unix_binding 1 initial) /\
  native_calls (snd (get_random_delay glibc_linux unix_binding 1 1 initial))
    = native_calls (snd (seconds unix_binding 1 initial)).
Proof.
  destruct (C7_degenerate_range_is_one_second glibc_linux unix_binding initial
              (conj eq_refl eq_refl)) as (_ & H1 & _ & H2 & _).
  split; [exact H1 | exact H2].
Defined.

(** C4, as stated, fails: [get_random_delay(2, 1)] with the draw 0.5
    raises nothing and sleeps one and a half seconds. *)
Lemma C4_counterexample :
  fst (get_random_delay glibc_linux unix_binding 2 1 initial) = Ok tt /\
  native_calls (snd (get_random_delay glibc_linux unix_binding 2 1 initial))
    = [(LibcUsleep, 1500000)].
Proof. split; vm_compute; reflexivity. Qed.

(** C4, amended. A range with [min > max] is not validated: the delay
    drawn is [min + (max - min) * r], and whenever its product with the
    unit is a number the call succeeds and makes one native wait for that
    product truncated; the only errors it can raise are those of [int()]
    on a product that is not a number. *)
Theorem C4_reversed_range_sleeps (h : host) (b : binding) (lo hi : float) (st : state) :
  bound b ->
  (hi <? lo)%float = true ->
  let delay := (lo + (hi - lo) * random_tape h (draws st))%float in
  (forall product q,
      PyNum.mul_int delay (sleep_unit b) = Ok product ->
      PyNum.value product = Some q ->
      fst (get_random_delay h b lo hi st) = Ok tt /\
      native_calls (snd (get_random_delay h b lo hi st))
        = (native_calls st ++ [(sleep_func b, PyNum.truncate q)])%list) /\
  (forall e,
      fst (get_random_delay h b lo hi st) = Raise e ->
      native_calls (snd (get_random_delay h b lo hi st)) = native_calls st /\
      (exn_class e = OverflowError \/ exn_class e = ValueError)).
Proof.
  intros Hb _ delay. rewrite get_random_delay_run. fold delay. split.
  - intros product q Hm Hq.
    rewrite (_sleep_run b delay product (PyNum.truncate q) _ Hm
               (int_of_float_truncate product q Hq)).
    split; reflexivity.
  - intros e. destruct (bound_unit_float b Hb) as (y & Hy & _).
    assert (Hm : PyNum.mul_int delay (sleep_unit b) = Ok (delay * y)%float).
    { unfold PyNum.mul_int. rewrite Hy. reflexivity. }
    destruct (PyNum.int_of_float (delay * y)%float) as [t | e'] eqn:Hi.
    + rewrite (_sleep_run b delay _ t _ Hm Hi). discriminate.
    + rewrite (_sleep_raises_before_effects b delay _ e' _ Hm Hi).
      cbn. intros [= <-]. split; [reflexivity |].
      unfold PyNum.int_of_float in Hi.
      destruct (Prim2SF (delay * y)); inversion Hi; cbn; auto.
Qed.

Lemma C4_witness :
  fst (get_random_delay glibc_linux unix_binding 2 1 initial) = Ok tt.
Proof.
  exact (proj1 (proj1 (C4_reversed_range_sleeps glibc_linux unix_binding 2 1 initial
                         bound_unix eq_refl) _ _ eq_refl eq_refl)).
Defined.

(** ** Character-paced output *)

Section Paced.

Variables (b : binding) (secs product : float) (t : Z).
Hypothesis Hproduct : PyNum.mul_int secs (sleep_unit b) = Ok product.
Hypothesis Hint : PyNum.int_of_float product = Ok t.

Lemma for_each_char_run (message : string) (st : state) :
  for_each_char (fun char => write [Ch char] ;; _sleep b secs) message st =
    (Ok tt,
     State (stdout st ++ flat_map (turn b secs t) (list_ascii_of_string message))
           (native_calls st ++ repeat (sleep_func b, t) (String.length message))
           (cdll_calls st) (draws st)).
Proof.
  revert st. induction message as [| c rest IH]; intros st.
  - cbn. rewrite !app_nil_r. destruct st; reflexivity.
  - cbn [for_each_char]. unfold mbind at 1. unfold mbind at 1.
    unfold write at 1. rewrite (_sleep_run b secs product t _ Hproduct Hint).
    rewrite IH. cbn [stdout native_calls cdll_calls draws].
    cbn [list_ascii_of_string flat_map String.length repeat].
    unfold turn at 2.
    change (Ch c :: notice_before b secs t ++ notice_after)%list
      with ([Ch c] ++ notice_before b secs t ++ notice_after)%list.
    rewrite <- !app_assoc. reflexivity.
Qed.

Lemma print_message_with_delay_run (message : string) (st : state) :
  print_message_with_delay b message secs st =
    (Ok tt,
     State (stdout st ++ flat_map (turn b secs t) (list_ascii_of_string message) ++ chars newline)
           (native_calls st ++ repeat (sleep_func b, t) (String.length message))
           (cdll_calls st) (draws st)).
Proof.
  unfold print_message_with_delay, mbind. rewrite for_each_char_run.
  unfold print, write. cbn [stdout native_calls cdll_calls draws].
  rewrite <- app_assoc. reflexivity.
Qed.

End Paced.

(** C3, as stated, fails: what [print_message_with_delay("ab", 0)] leaves
    on standard output is not the two characters [a], [b]. *)
Lemma C3_counterexample :
  stdout (snd (print_message_with_delay unix_binding "ab" 0 initial))
    <> [Ch "a"; Ch "b"].
Proof. vm_compute. discriminate. Qed.

(** C3, amended. [print_message_with_delay("ab", 0)] succeeds on every
    bound binding and writes [a] then [b] in that order, each followed by
    the two lines the sleep primitive prints around its wait (the
    "Sleeping for ..." line and "Awake!"), then a final newline; it calls
    the native wait twice, with 0. *)
Theorem C3_paced_output_of_ab (b : binding) (st : state) :
  bound b ->
  fst (print_message_with_delay b "ab" 0 st) = Ok tt /\
  stdout (snd (print_message_with_delay b "ab" 0 st))
    = (stdout st
       ++ [Ch "a"] ++ notice_before b 0 0 ++ notice_after
       ++ [Ch "b"] ++ notice_before b 0 0 ++ notice_after
       ++ chars newline)%list /\
  native_calls (snd (print_message_with_delay b "ab" 0 st))
    = (native_calls st ++ [(sleep_func b, 0); (sleep_func b, 0)])%list.
Proof.
  intros Hb.
  assert (H : exists product,
             PyNum.mul_int 0 (sleep_unit b) = Ok product /\
             PyNum.int_of_float product = Ok 0).
  { destruct (bound_cases b Hb) as [-> | ->]; eexists; split; vm_compute; reflexivity. }
  destruct H as (product & Hm & Hi).
  rewrite (print_message_with_delay_run b 0%float product 0 Hm Hi "ab" st).
  cbn [fst snd stdout native_calls list_ascii_of_string flat_map String.length repeat].
  unfold turn.
  split; [reflexivity | split; [| reflexivity]].
  repeat (progress (cbn [app]; rewrite <- ?app_assoc)). reflexivity.
Qed.

Lemma C3_witness :
  native_calls (snd (print_message_with_delay unix_binding "ab" 0 initial))
    = [(LibcUsleep, 0); (LibcUsleep, 0)].
Proof.
  exact (proj2 (proj2 (C3_paced_output_of_ab unix_binding initial bound_unix))).
Defined.

(** ** Introspection queries *)

(** [get_username] reads one environment variable and cannot raise. *)
Lemma get_username_never_raises (h : host) (st : state) :
  get_username h st =
    (Ok (match environ h (if startswith (sys_platform h) "win32" then "USERNAME" else "USER") with
         | Some s => PyStr s
         | None => PyNone
         end), st).
Proof. unfold get_username. destruct (environ h _); reflexivity. Qed.

(** On Linux [get_cpu_count] is the number of [processor] lines, which
    nothing keeps above zero. *)
Lemma get_cpu_count_linux (h : host) (st : state) (lines : list string) :
  startswith (sys_platform h) "linux" = true ->
  file_lines h "/proc/cpuinfo" = Ok lines ->
  get_cpu_count h st =
    (Ok (PyInt (fold_left
                  (fun count line =>
                     if startswith (PyStr.strip line) "processor" then count + 1 else count)
                  lines 0)), st).
Proof.
  intros Hl Hf. unfold get_cpu_count.
  rewrite (startswith_linux_not_win32 _ Hl), Hl, Hf. reflexivity.
Qed.

(** On every Windows host [get_uptime] and [get_free_memory] raise
    [NameError]; nothing the host answers is consulted first. *)
Lemma get_uptime_windows (float_of_str : string -> result float) (u : unreached)
    (h : host) (st : state) :
  family_of (sys_platform h) = Windows ->
  get_uptime float_of_str u h st
    = (Raise (Exn NameError "name 'time' is not defined"), st).
Proof.
  intros Hf. pose proof (family_of_cases (sys_platform h)) as Hw. rewrite Hf in Hw.
  unfold get_uptime.
  destruct (startswith (sys_platform h) "linux") eqn:Hl;
    [rewrite (startswith_linux_not_win32 _ Hl) in Hw; discriminate |].
  destruct (startswith (sys_platform h) "darwin") eqn:Hd;
    [rewrite (startswith_darwin_not_win32 _ Hd) in Hw; discriminate |].
  rewrite Hw. reflexivity.
Qed.

Lemma get_free_memory_windows (u : unreached) (h : host) (st : state) :
  family_of (sys_platform h) = Windows ->
  get_free_memory u h st
    = (Raise (Exn NameError "name 'MEMORYSTATUSEX' is not defined"), st).
Proof.
  intros Hf. pose proof (family_of_cases (sys_platform h)) as Hw. rewrite Hf in Hw.
  unfold get_free_memory.
  destruct (startswith (sys_platform h) "linux") eqn:Hl;
    [rewrite (startswith_linux_not_win32 _ Hl) in Hw; discriminate |].
  destruct (startswith (sys_platform h) "darwin") eqn:Hd;
    [rewrite (startswith_darwin_not_win32 _ Hd) in Hw; discriminate |].
  rewrite Hw. reflexivity.
Qed.

(** On Darwin, once the C library is loaded, [get_uptime] returns [None]
    when the sysctl query fails and raises [NameError] when it succeeds. *)
Lemma get_uptime_darwin (float_of_str : string -> result float) (u : unreached)
    (h : host) (st : state) :
  family_of (sys_platform h) = Darwin ->
  dlopen h "libc.dylib" = Loaded ->
  fst (get_uptime float_of_str u h st) =
    match sysctlbyname h "kern.boottime" with
    | Some _ => Raise (Exn NameError "name 'time' is not defined")
    | None => Ok PyNone
    end.
Proof.
  intros Hf Hload. pose proof (family_of_cases (sys_platform h)) as Hc.
  rewrite Hf in Hc. destruct Hc as (_ & Hl & Hd).
  unfold get_uptime. rewrite Hl, Hd. unfold mbind at 1, CDLL. rewrite Hload.
  destruct (sysctlbyname h "kern.boottime"); reflexivity.
Qed.

(** C2: the queries do raise. On Windows [get_uptime] stops at the name
    [time] and [get_free_memory] at [MEMORYSTATUSEX], on Darwin
    [get_free_memory] stops at [vm_statistics]: the module binds none of
    them, so each call raises [NameError], whatever the host answers. On
    Linux an uptime file that cannot be opened raises [OSError] to the
    caller. *)
Theorem C2_queries_raise
    (float_of_str : string -> result float) (u : unreached) (st : state) :
  fst (get_uptime float_of_str u windows st)
    = Raise (Exn NameError "name 'time' is not defined") /\
  fst (get_free_memory u windows st)
    = Raise (Exn NameError "name 'MEMORYSTATUSEX' is not defined") /\
  fst (get_free_memory u macos st)
    = Raise (Exn NameError "name 'vm_statistics' is not defined") /\
  fst (get_uptime float_of_str u glibc_linux st)
    = Raise (Exn OSError "No such file or directory: /proc/uptime").
Proof. repeat apply conj; reflexivity. Qed.

(** C5: the count can be zero. On a Linux host whose [/proc/cpuinfo] has
    no line starting with [processor], and on a Darwin host whose sysctl
    query fails, [get_cpu_count] returns 0; when [/proc/cpuinfo] cannot be
    opened it raises instead of returning 1. *)
Theorem C5_cpu_count_below_one (st : state) :
  fst (get_cpu_count arm_board st) = Ok (PyInt 0) /\
  fst (get_cpu_count macos st) = Ok (PyInt 0) /\
  fst (get_cpu_count glibc_linux st)
    = Raise (Exn OSError "No such file or directory: /proc/cpuinfo").
Proof. repeat apply conj; reflexivity. Qed.

(** * Further properties *)

(** ** [_sleep]: all or nothing *)

(** X1. On a bound binding a call of [_sleep] has two possible outcomes.
    If the product [seconds * sleep_unit] is a number, the call succeeds:
    it prints the start notice, makes exactly one native wait for the
    product truncated, and prints the end notice. Otherwise (the product
    is infinite or NaN) it raises [OverflowError] or [ValueError] before
    any effect: nothing is printed and no wait is made. *)
Theorem X1_sleep_all_or_nothing (b : binding) (secs : float) (st : state) :
  bound b ->
  exists product,
    PyNum.mul_int secs (sleep_unit b) = Ok product /\
    match PyNum.value product with
    | Some q =>
        _sleep b secs st =
          (Ok tt,
           State (stdout st ++ notice_before b secs (PyNum.truncate q) ++ notice_after)
                 (native_calls st ++ [(sleep_func b, PyNum.truncate q)])
                 (cdll_calls st) (draws st))
    | None =>
        exists e, _sleep b secs st = (Raise e, st) /\
                  (exn_class e = OverflowError \/ exn_class e = ValueError)
    end.
Proof.
  intros Hb. destruct (bound_product b secs Hb) as (y & _ & Hm).
  exists (secs * y)%float. split; [exact Hm |].
  destruct (PyNum.value (secs * y)) as [q |] eqn:Hv.
  - exact (_sleep_run b secs _ _ st Hm (int_of_float_truncate _ q Hv)).
  - destruct (int_of_float_no_value _ Hv) as (e & Hi & Hc).
    exists e. split; [| exact Hc].
    exact (_sleep_raises_before_effects b secs _ e st Hm Hi).
Qed.

Lemma X1_witness :
  exists product,
    PyNum.mul_int infinity (sleep_unit unix_binding) = Ok product /\
    match PyNum.value product with
    | Some q =>
        _sleep unix_binding infinity initial =
          (Ok tt,
           State (stdout initial ++ notice_before unix_binding infinity (PyNum.truncate q)
                    ++ notice_after)
                 (native_calls initial ++ [(sleep_func unix_binding, PyNum.truncate q)])
                 (cdll_calls initial) (draws initial))
    | None =>
        exists e, _sleep unix_binding infinity initial = (Raise e, initial) /\
                  (exn_class e = OverflowError \/ exn_class e = ValueError)
    end.
Proof. exact (X1_sleep_all_or_nothing unix_binding infinity initial bound_unix). Defined.

(** ** Negative durations *)

Lemma value_of_negative (x : float) (m : positive) (e : Z) (q : Q) :
  Prim2SF x = S754_finite true m e -> PyNum.value x = Some q -> (q <= 0)%Q.
Proof.
  unfold PyNum.value. intros ->.
  assert (H0 : Z.neg m * 2 ^ e <= 0)
    by (apply Z.mul_nonpos_nonneg; [lia | apply Z.pow_nonneg; lia]).
  destruct (0 <=? e) eqn:He; intros Hq; inversion Hq; subst q; clear Hq.
  - change (Z.neg m * 2 ^ e * 1 <= 0 * 1). lia.
  - change (Z.neg m * 1 <= 0 * Z.pos (Z.to_pos (2 ^ (- e)))). lia.
Qed.

Lemma value_of_zero_nonpos (x : float) (s : bool) (q : Q) :
  Prim2SF x = S754_zero s -> PyNum.value x = Some q -> (q <= 0)%Q.
Proof.
  unfold PyNum.value. intros ->. intros [= <-]. unfold Qle. cbn. lia.
Qed.

(** A negative float times a positive one is, when a number, at most
    zero. *)
Lemma nonpos_product_value (secs y : float) (q : Q) :
  (secs <? 0)%float = true -> (0 <? y)%float = true ->
  PyNum.value (secs * y) = Some q -> (q <= 0)%Q.
Proof.
  intros Hs Hy. rewrite ltb_spec in Hs, Hy.
  change (Prim2SF 0) with (S754_zero false) in Hs, Hy.
  pose proof (mul_spec secs y) as Hmul.
  destruct (Prim2SF secs) as [ss | ss | | ss ms es];
    destruct (Prim2SF y) as [sy | sy | | sy my ey];
    try discriminate; cbn [SF64mul SFmul] in Hmul.
  all: try no_value Hmul.
  destruct ss; [| discriminate]. destruct sy; [discriminate |].
  cbn [xorb] in Hmul.
  pose proof (binary_round_aux_sign true (Z.pos (ms * my)) (es + ey) loc_Exact) as Hsign.
  destruct (binary_round_aux prec emax true (Z.pos (ms * my)) (es + ey) loc_Exact)
    as [s | s | | s m e].
  - apply (value_of_zero_nonpos _ _ _ Hmul).
  - no_value Hmul.
  - no_value Hmul.
  - subst s. apply (value_of_negative _ _ _ _ Hmul).
Qed.

Lemma truncate_nonpos_ceiling (q : Q) :
  (q <= 0)%Q -> PyNum.truncate q = Qceiling q.
Proof.
  destruct q as [n d]. unfold Qle, PyNum.truncate, Qceiling, Qfloor, Qopp. cbn [Qnum Qden].
  intros H. replace n with (- - n) at 1 by lia.
  rewrite Z.quot_opp_l by lia. rewrite Z.quot_div_nonneg by lia. reflexivity.
Qed.

(** X2. A negative duration is not rejected. On a bound binding, when its
    product with the unit is a number, [_sleep] succeeds and calls the
    native wait with a non-positive integer [t], the product truncated
    toward zero: [product <= t < product + 1]. *)
Theorem X2_negative_duration_accepted
    (b : binding) (secs product : float) (q : Q) (st : state) :
  bound b ->
  (secs <? 0)%float = true ->
  PyNum.mul_int secs (sleep_unit b) = Ok product ->
  PyNum.value product = Some q ->
  fst (_sleep b secs st) = Ok tt /\
  native_calls (snd (_sleep b secs st))
    = (native_calls st ++ [(sleep_func b, PyNum.truncate q)])%list /\
  PyNum.truncate q <= 0 /\
  (q <= inject_Z (PyNum.truncate q))%Q /\
  (inject_Z (PyNum.truncate q - 1) < q)%Q.
Proof.
  intros Hb Hs Hm Hq.
  rewrite (_sleep_run b secs product (PyNum.truncate q) st Hm
             (int_of_float_truncate product q Hq)).
  split; [reflexivity | split; [reflexivity |]].
  assert (Hq0 : (q <= 0)%Q).
  { destruct (bound_product b secs Hb) as (y & Hpos & Hm').
    rewrite Hm in Hm'. injection Hm' as ->.
    exact (nonpos_product_value secs y q Hs Hpos Hq). }
  rewrite (truncate_nonpos_ceiling q Hq0).
  split; [| split; [apply Qle_ceiling | apply Qceiling_lt]].
  rewrite <- (Qceiling_Z 0). apply Qceiling_resp_le. exact Hq0.
Qed.

Lemma X2_witness :
  native_calls (snd (_sleep unix_binding (-1.5) initial)) = [(LibcUsleep, -1500000)].
Proof.
  exact (proj1 (proj2 (X2_negative_duration_accepted unix_binding (-1.5)%float _ _ initial
                         bound_unix eq_refl eq_refl eq_refl))).
Defined.

(** ** What the C function receives *)

(** X3. The 32-bit argument conversion shortens long waits. For a
    non-negative duration on a bound binding whose product with the unit
    is a number, the C function receives the integer [_sleep] computed
    exactly when the product is below 2^32 (about 71.6 minutes on the
    microsecond binding, 49.7 days on the millisecond one); from 2^32 on
    it receives that integer modulo 2^32, a strictly smaller wait. *)
Theorem X3_c_argument_wraps
    (b : binding) (secs product : float) (q : Q) (st : state) :
  bound b ->
  (0 <=? secs)%float = true ->
  PyNum.mul_int secs (sleep_unit b) = Ok product ->
  PyNum.value product = Some q ->
  let call := (sleep_func b, PyNum.truncate q) in
  native_calls (snd (_sleep b secs st)) = (native_calls st ++ [call])%list /\
  0 <= c_argument call < 2 ^ 32 /\
  ((q < inject_Z (2 ^ 32))%Q -> c_argument call = PyNum.truncate q) /\
  ((inject_Z (2 ^ 32) <= q)%Q -> c_argument call < PyNum.truncate q).
Proof.
  intros Hb Hs Hm Hq call.
  assert (Hq0 : (0 <= q)%Q).
  { destruct (bound_product b secs Hb) as (y & Hpos & Hm').
    rewrite Hm in Hm'. injection Hm' as ->.
    exact (nonneg_product_value secs y q Hs Hpos Hq). }
  assert (Ht0 : 0 <= PyNum.truncate q).
  { rewrite (truncate_nonneg_floor q Hq0). rewrite <- (Qfloor_Z 0).
    apply Qfloor_resp_le. exact Hq0. }
  assert (Hrange : 0 <= c_argument call < 2 ^ 32)
    by (unfold c_argument; apply Z.mod_pos_bound; lia).
  split.
  - rewrite (_sleep_run b secs product (PyNum.truncate q) st Hm
               (int_of_float_truncate product q Hq)). reflexivity.
  - split; [exact Hrange |]. split.
    + intros Hlt. apply floor_lt_iff in Hlt.
      rewrite <- (truncate_nonneg_floor q Hq0) in Hlt.
      unfold c_argument, call. cbn [snd]. apply Z.mod_small. lia.
    + intros Hge.
      assert (Hfl : ~ Qfloor q < 2 ^ 32).
      { intros Hlt. apply floor_lt_iff in Hlt.
        exact (Qlt_not_le _ _ Hlt Hge). }
      rewrite <- (truncate_nonneg_floor q Hq0) in Hfl. lia.
Qed.

Lemma X3_witness :
  c_argument (sleep_func unix_binding, 7200000000) < 7200000000.
Proof.
  refine (proj2 (proj2 (proj2 (X3_c_argument_wraps unix_binding 7200 _ _ initial
                                 bound_unix eq_refl eq_refl eq_refl))) _).
  vm_compute. discriminate.
Defined.

(** ** Construction and the module-level [xsleep] *)

(** Construction only loads libraries: at most two, and none outside
    Linux and Darwin. *)
Lemma XSleep_effects (h : host) (st : state) :
  exists names,
    snd (XSleep h st)
      = State (stdout st) (native_calls st) (cdll_calls st ++ names) (draws st) /\
    match family_of (sys_platform h) with
    | Windows | Unsupported => names = []
    | Linux | Darwin =>
        names = [primary_libc (sys_platform h)] /\
        loads h (primary_libc (sys_platform h)) = true \/
        names = [primary_libc (sys_platform h); "/usr/lib/libc.dylib"] /\
        loads h (primary_libc (sys_platform h)) = false
    end.
Proof.
  pose proof (family_of_cases (sys_platform h)) as Hf.
  assert (Hunix :
    startswith (sys_platform h) "win32" = false ->
    startswith (sys_platform h) "linux" || startswith (sys_platform h) "darwin" = true ->
    exists names,
      snd (XSleep h st)
        = State (stdout st) (native_calls st) (cdll_calls st ++ names) (draws st) /\
      (names = [primary_libc (sys_platform h)] /\
       loads h (primary_libc (sys_platform h)) = true \/
       names = [primary_libc (sys_platform h); "/usr/lib/libc.dylib"] /\
       loads h (primary_libc (sys_platform h)) = false)).
  { intros Hw Hu. unfold XSleep, loads.
    rewrite (_get_sleep_func_unix h st Hw Hu), load_libc_run.
    destruct (dlopen h (primary_libc (sys_platform h))).
    - eexists. split; [reflexivity | left; split; reflexivity].
    - eexists. split; [reflexivity | right; split; reflexivity]. }
  destruct (family_of (sys_platform h)).
  - exists []. unfold XSleep, _get_sleep_func. rewrite Hf, app_nil_r.
    destruct st; split; reflexivity.
  - destruct Hf as (Hw & Hl & _). apply Hunix; [exact Hw | rewrite Hl; reflexivity].
  - destruct Hf as (Hw & _ & Hd). apply Hunix; [exact Hw | rewrite Hd; apply orb_true_r].
  - destruct Hf as (Hw & Hl & Hd). exists []. unfold XSleep, _get_sleep_func.
    rewrite Hw, Hl, Hd, app_nil_r. destruct st; split; reflexivity.
Qed.

(** X4. Constructing an [XSleep] prints nothing, makes no native wait and
    draws no random number, whether it succeeds or raises. Its only
    effect is loading libraries: none on Windows and on unsupported
    platforms; on Linux and Darwin the primary C library name, followed
    by [/usr/lib/libc.dylib] exactly when the primary one did not load. *)
Theorem X4_construction_effects (h : host) (st : state) :
  stdout (snd (XSleep h st)) = stdout st /\
  native_calls (snd (XSleep h st)) = native_calls st /\
  draws (snd (XSleep h st)) = draws st /\
  cdll_calls (snd (XSleep h st)) =
    (cdll_calls st ++
     match family_of (sys_platform h) with
     | Windows | Unsupported => []
     | Linux | Darwin =>
         if loads h (primary_libc (sys_platform h))
         then [primary_libc (sys_platform h)]
         else [primary_libc (sys_platform h); "/usr/lib/libc.dylib"]
     end)%list.
Proof.
  destruct (XSleep_effects h st) as (names & Hst & Hn). rewrite Hst.
  cbn [stdout native_calls cdll_calls draws].
  repeat (split; [reflexivity |]). f_equal.
  destruct (family_of (sys_platform h)); try exact Hn;
    destruct Hn as [[-> ->] | [-> ->]]; reflexivity.
Qed.

(** X5. The module-level [xsleep] binds afresh on every call and then
    sleeps. If binding raises, [xsleep] raises the same error having
    printed nothing and made no wait. If binding yields [b] and the
    product of the duration and the unit of [b] is a number, [xsleep]
    succeeds, prints the two notices of one sleep and makes exactly one
    native wait, for the product truncated. *)
Theorem X5_xsleep_binds_then_sleeps (h : host) (secs : float) (st : state) :
  (forall e, fst (XSleep h st) = Raise e ->
     fst (xsleep h secs st) = Raise e /\
     stdout (snd (xsleep h secs st)) = stdout st /\
     native_calls (snd (xsleep h secs st)) = native_calls st) /\
  (forall b product q,
     fst (XSleep h st) = Ok b ->
     PyNum.mul_int secs (sleep_unit b) = Ok product ->
     PyNum.value product = Some q ->
     fst (xsleep h secs st) = Ok tt /\
     stdout (snd (xsleep h secs st))
       = (stdout st ++ notice_before b secs (PyNum.truncate q) ++ notice_after)%list /\
     native_calls (snd (xsleep h secs st))
       = (native_calls st ++ [(sleep_func b, PyNum.truncate q)])%list /\
     cdll_calls (snd (xsleep h secs st)) = cdll_calls (snd (XSleep h st))).
Proof.
  destruct (XSleep_effects h st) as (names & Hst & _).
  unfold xsleep, mbind. unfold XSleep in *.
  destruct (_get_sleep_func h st) as [[b | e] st'] eqn:Hrun; cbn [fst snd] in *; subst st'.
  - split; [discriminate |]. intros b' product q [= <-] Hm Hq.
    rewrite (_sleep_run b secs product (PyNum.truncate q) _ Hm
               (int_of_float_truncate product q Hq)).
    repeat split.
  - split; [| discriminate]. intros e' [= <-]. repeat split.
Qed.

Lemma X5_witness :
  fst (xsleep freebsd 1 initial) = Raise (Exn OSError "Unsupported operating system.") /\
  native_calls (snd (xsleep glibc_linux 1.5 initial)) = [(LibcUsleep, 1500000)].
Proof.
  split.
  - exact (proj1 (proj1 (X5_xsleep_binds_then_sleeps freebsd 1 initial) _ eq_refl)).
  - exact (proj1 (proj2 (proj2 (proj2 (X5_xsleep_binds_then_sleeps glibc_linux 1.5 initial)
                                   _ _ _ eq_refl eq_refl eq_refl)))).
Defined.

(** ** Character-paced output, in general *)

(** X6. For every message, on every binding: when the product of the
    delay and the unit is a number, [print_message_with_delay] succeeds,
    makes exactly one native wait per character of the message (each for
    the product truncated), and writes each character followed by the two
    notices of its sleep, in message order, then a newline. *)
Theorem X6_paced_output_of_any_message
    (b : binding) (message : string) (secs product : float) (q : Q) (st : state) :
  PyNum.mul_int secs (sleep_unit b) = Ok product ->
  PyNum.value product = Some q ->
  let t := PyNum.truncate q in
  fst (print_message_with_delay b message secs st) = Ok tt /\
  stdout (snd (print_message_with_delay b message secs st))
    = (stdout st ++ flat_map (turn b secs t) (list_ascii_of_string message)
       ++ chars newline)%list /\
  native_calls (snd (print_message_with_delay b message secs st))
    = (native_calls st ++ repeat (sleep_func b, t) (String.length message))%list /\
  List.length (native_calls (snd (print_message_with_delay b message secs st)))
    = (List.length (native_calls st) + String.length message)%nat.
Proof.
  intros Hm Hq t.
  rewrite (print_message_with_delay_run b secs product t Hm
             (int_of_float_truncate product q Hq) message st).
  cbn [fst snd stdout native_calls].
  repeat (split; [reflexivity |]).
  rewrite length_app, repeat_length. reflexivity.
Qed.

Lemma X6_witness :
  List.length (native_calls (snd (print_message_with_delay unix_binding "hello" 0.25 initial)))
    = 5%nat.
Proof.
  exact (proj2 (proj2 (proj2 (X6_paced_output_of_any_message unix_binding "hello" 0.25 _ _
                                initial eq_refl eq_refl)))).
Defined.

(** X7. When the product of the delay and the unit is not a number, an
    empty message still prints its newline and succeeds, without any
    wait; a non-empty message has its first character written and then
    raises the error of [int()], with no notice, no wait, no further
    character and no final newline. *)
Theorem X7_paced_output_failure
    (b : binding) (secs product : float) (st : state) :
  PyNum.mul_int secs (sleep_unit b) = Ok product ->
  PyNum.value product = None ->
  print_message_with_delay b "" secs st
    = (Ok tt, State (stdout st ++ chars newline) (native_calls st)
                    (cdll_calls st) (draws st)) /\
  (forall c rest,
     exists e,
       print_message_with_delay b (String c rest) secs st
         = (Raise e, State (stdout st ++ [Ch c]) (native_calls st)
                           (cdll_calls st) (draws st)) /\
       (exn_class e = OverflowError \/ exn_class e = ValueError)).
Proof.
  intros Hm Hv. split; [reflexivity |].
  intros c rest. destruct (int_of_float_no_value product Hv) as (e & Hi & Hc).
  exists e. split; [| exact Hc].
  unfold print_message_with_delay. cbn [for_each_char].
  unfold mbind at 1. unfold mbind at 1. unfold mbind at 1. unfold write at 1.
  rewrite (_sleep_raises_before_effects b secs product e _ Hm Hi). reflexivity.
Qed.

Lemma X7_witness :
  exists e,
    print_message_with_delay unix_binding "ab" nan initial
      = (Raise e, State [Ch "a"] [] [] 0) /\
    (exn_class e = OverflowError \/ exn_class e = ValueError).
Proof.
  exact (proj2 (X7_paced_output_failure unix_binding nan _ initial eq_refl eq_refl)
           "a"%char "b").
Defined.

(** ** The Linux pseudo-files *)

Lemma family_linux (h : host) :
  family_of (sys_platform h) = Linux ->
  startswith (sys_platform h) "win32" = false /\
  startswith (sys_platform h) "linux" = true /\
  startswith (sys_platform h) "darwin" = false.
Proof.
  intros Hf. pose proof (family_of_cases (sys_platform h)) as Hc.
  rewrite Hf in Hc. exact Hc.
Qed.

Lemma count_processor_lines (lines : list string) (acc : Z) :
  fold_left
    (fun count line =>
       if startswith (PyStr.strip line) "processor" then count + 1 else count)
    lines acc
  = acc + Z.of_nat (List.length (filter is_processor_line lines)).
Proof.
  revert acc. induction lines as [| line rest IH]; intros acc; cbn [fold_left filter].
  - cbn. lia.
  - rewrite IH. unfold is_processor_line at 2.
    destruct (startswith (PyStr.strip line) "processor"); cbn [List.length]; lia.
Qed.

(** X8. On Linux [get_cpu_count] raises what opening [/proc/cpuinfo]
    raises; otherwise it returns, without any effect, the number of lines
    whose text, stripped of surrounding space, starts with [processor].
    That number lies between 0 and the number of lines, and is at least 1
    exactly when some line passes the test. *)
Theorem X8_cpu_count_linux_counts_lines (h : host) (st : state) :
  family_of (sys_platform h) = Linux ->
  (forall e, file_lines h "/proc/cpuinfo" = Raise e ->
             get_cpu_count h st = (Raise e, st)) /\
  (forall lines, file_lines h "/proc/cpuinfo" = Ok lines ->
     let n := Z.of_nat (List.length (filter is_processor_line lines)) in
     get_cpu_count h st = (Ok (PyInt n), st) /\
     0 <= n <= Z.of_nat (List.length lines) /\
     (1 <= n <-> exists line, In line lines /\ is_processor_line line = true)).
Proof.
  intros Hf. destruct (family_linux h Hf) as (Hw & Hl & _). split.
  - intros e He. unfold get_cpu_count. rewrite Hw, Hl, He. reflexivity.
  - intros lines Hlines n.
    rewrite (get_cpu_count_linux h st lines Hl Hlines), count_processor_lines.
    split; [reflexivity |]. split.
    + pose proof (filter_length_le is_processor_line lines). lia.
    + subst n. split.
      * intros Hn. destruct (filter is_processor_line lines) as [| line rest] eqn:Hfl;
          [cbn in Hn; lia |].
        exists line. apply filter_In. rewrite Hfl. now left.
      * intros (line & Hin & Hp).
        assert (Hin' : In line (filter is_processor_line lines))
          by (apply filter_In; split; assumption).
        destruct (filter is_processor_line lines); [contradiction | cbn; lia].
Qed.

Lemma X8_witness : get_cpu_count proc_linux initial = (Ok (PyInt 2), initial).
Proof.
  exact (proj1 (proj2 (X8_cpu_count_linux_counts_lines proc_linux initial eq_refl)
                  _ eq_refl)).
Defined.

Lemma first_MemAvailable_find (lines : list string) (st : state) :
  first_MemAvailable lines st =
    (match find is_MemAvailable_line lines with
     | Some line => MemAvailable_bytes line
     | None => Ok PyNone
     end, st).
Proof.
  induction lines as [| line rest IH]; [reflexivity |].
  cbn [first_MemAvailable find]. unfold is_MemAvailable_line at 1.
  destruct (startswith line "MemAvailable:"); [| exact IH].
  unfold MemAvailable_bytes, mbind, lift, ret, rbind.
  destruct (PyStr.index (PyStr.split line) 1) as [field | e]; [| reflexivity].
  destruct (PyStr.int_of_str field); reflexivity.
Qed.

Lemma find_first {A} (f : A -> bool) (pre post : list A) (x : A) :
  (forall y, In y pre -> f y = false) -> f x = true ->
  find f (pre ++ x :: post) = Some x.
Proof.
  intros Hpre Hx. induction pre as [| y pre IH]; cbn [app find].
  - rewrite Hx. reflexivity.
  - rewrite (Hpre y (or_introl eq_refl)). apply IH.
    intros z Hz. apply Hpre. now right.
Qed.

(** X9. On Linux [get_free_memory] raises what opening [/proc/meminfo]
    raises; otherwise only the first line starting with [MemAvailable:]
    counts. Without such a line the result is [None], with no error. With
    one, the result is 1024 times the integer read from the second field
    of that line (or the [IndexError] / [ValueError] of reading it),
    whatever the lines before and after it hold; an integer result is a
    multiple of 1024. The state is left as it was. *)
Theorem X9_free_memory_linux_first_MemAvailable (u : unreached) (h : host) (st : state) :
  family_of (sys_platform h) = Linux ->
  (forall e, file_lines h "/proc/meminfo" = Raise e ->
             get_free_memory u h st = (Raise e, st)) /\
  (forall lines, file_lines h "/proc/meminfo" = Ok lines ->
     ((forall line, In line lines -> is_MemAvailable_line line = false) ->
      get_free_memory u h st = (Ok PyNone, st)) /\
     (forall pre line post,
        lines = (pre ++ line :: post)%list ->
        (forall other, In other pre -> is_MemAvailable_line other = false) ->
        is_MemAvailable_line line = true ->
        get_free_memory u h st = (MemAvailable_bytes line, st))) /\
  (forall v, fst (get_free_memory u h st) = Ok v ->
             v = PyNone \/ exists kb, v = PyInt (kb * 1024)).
Proof.
  intros Hf. destruct (family_linux h Hf) as (Hw & Hl & _).
  assert (Hrun : forall lines, file_lines h "/proc/meminfo" = Ok lines ->
            get_free_memory u h st =
              (match find is_MemAvailable_line lines with
               | Some line => MemAvailable_bytes line
               | None => Ok PyNone
               end, st)).
  { intros lines Hlines. unfold get_free_memory. rewrite Hl, Hlines.
    rewrite mbind_lift_ok. apply first_MemAvailable_find. }
  split; [| split].
  - intros e He. unfold get_free_memory. rewrite Hl, He. reflexivity.
  - intros lines Hlines. rewrite (Hrun lines Hlines). split.
    + intros Hnone.
      destruct (find is_MemAvailable_line lines) as [line |] eqn:Hfind; [| reflexivity].
      apply find_some in Hfind. destruct Hfind as [Hin Hp].
      rewrite (Hnone line Hin) in Hp. discriminate.
    + intros pre line post -> Hpre Hline.
      rewrite (find_first is_MemAvailable_line pre post line Hpre Hline). reflexivity.
  - intros v. destruct (file_lines h "/proc/meminfo") as [lines | e] eqn:Hlines.
    + rewrite (Hrun lines eq_refl). cbn [fst].
      destruct (find is_MemAvailable_line lines) as [line |]; [| intros [= <-]; now left].
      unfold MemAvailable_bytes, rbind.
      destruct (PyStr.index (PyStr.split line) 1) as [field |]; [| discriminate].
      destruct (PyStr.int_of_str field) as [kb |]; [| discriminate].
      intros [= <-]. right. exists kb. reflexivity.
    + unfold get_free_memory. rewrite Hl, Hlines. discriminate.
Qed.

(** A usual [/proc/meminfo] gives the available kilobytes times 1024; one
    without the [MemAvailable] line gives [None]. *)
Lemma X9_witness :
  get_free_memory no_answers proc_linux initial
    = (Ok (PyInt (8123456 * 1024)), initial) /\
  get_free_memory no_answers old_linux initial = (Ok PyNone, initial).
Proof.
  split.
  - apply (proj2 (proj1 (proj2 (X9_free_memory_linux_first_MemAvailable no_answers
                                  proc_linux initial eq_refl)) _ eq_refl)
             [_; _] _ [_] eq_refl);
      [intros other [<- | [<- | []]]; reflexivity | reflexivity].
  - apply (proj1 (proj1 (proj2 (X9_free_memory_linux_first_MemAvailable no_answers
                                  old_linux initial eq_refl)) _ eq_refl)).
    intros line [<- | [<- | []]]; reflexivity.
Defined.

Lemma split_from_head (s w : string) :
  w <> EmptyString \/
  match s with String c _ => PyStr.is_space c = false | EmptyString => False end ->
  hd_error (PyStr.split_from w s) = Some (PyStr.rev_append w (take_word s)).
Proof.
  revert w. induction s as [| c rest IH]; intros w H.
  - destruct H as [Hw | []]. destruct w; [contradiction | reflexivity].
  - cbn [PyStr.split_from take_word]. destruct (PyStr.is_space c) eqn:Hc.
    + destruct H as [Hw | Hs]; [| discriminate].
      destruct w; [contradiction | reflexivity].
    + apply (IH (String c w)). left. discriminate.
Qed.

Lemma split_blank (s : string) : blank s = true -> PyStr.split s = [].
Proof.
  unfold PyStr.split. induction s as [| c rest IH]; [reflexivity |].
  cbn [blank PyStr.split_from]. destruct (PyStr.is_space c); [| discriminate].
  exact IH.
Qed.

Lemma split_first_word (s : string) :
  blank s = false -> hd_error (PyStr.split s) = Some (first_word s).
Proof.
  unfold PyStr.split, first_word. induction s as [| c rest IH]; [discriminate |].
  cbn [blank]. destruct (PyStr.is_space c) eqn:Hc; cbn [andb]; intros Hb.
  - cbn [PyStr.split_from PyStr.lstrip]. rewrite Hc. cbn [app]. exact (IH Hb).
  - rewrite (split_from_head (String c rest) EmptyString) by (right; exact Hc).
    cbn [PyStr.lstrip]. rewrite Hc. reflexivity.
Qed.

Lemma index_0_hd {A} (xs : list A) :
  PyStr.index xs 0 =
    match hd_error xs with
    | Some x => Ok x
    | None => Raise (Exn IndexError "list index out of range")
    end.
Proof. destruct xs; reflexivity. Qed.

(** X10. On Linux [get_uptime] raises what opening [/proc/uptime] raises;
    otherwise it looks at the first line only. If the file is empty or
    that line holds nothing but space, it raises [IndexError]. Otherwise
    it hands the first word of the line to [float()] and returns the
    float, or raises what [float()] raises. The state is left as it
    was. *)
Theorem X10_uptime_linux_first_word
    (float_of_str : string -> result float) (u : unreached) (h : host) (st : state) :
  family_of (sys_platform h) = Linux ->
  (forall e, file_lines h "/proc/uptime" = Raise e ->
             get_uptime float_of_str u h st = (Raise e, st)) /\
  (forall lines, file_lines h "/proc/uptime" = Ok lines ->
     let first := hd "" lines in
     (blank first = true ->
      get_uptime float_of_str u h st
        = (Raise (Exn IndexError "list index out of range"), st)) /\
     (blank first = false ->
      get_uptime float_of_str u h st
        = (match float_of_str (first_word first) with
           | Ok x => Ok (PyFloat x)
           | Raise e => Raise e
           end, st))).
Proof.
  intros Hf. destruct (family_linux h Hf) as (_ & Hl & _). split.
  - intros e He. unfold get_uptime. rewrite Hl, He. reflexivity.
  - intros lines Hlines first. unfold get_uptime. rewrite Hl, Hlines, mbind_lift_ok.
    fold first. rewrite index_0_hd. split; intros Hb.
    + rewrite (split_blank first Hb). reflexivity.
    + rewrite (split_first_word first Hb), mbind_lift_ok.
      unfold mbind, lift, ret. destruct (float_of_str (first_word first)); reflexivity.
Qed.

Lemma X10_witness :
  get_uptime (fun _ => Ok 35017.22%float) no_answers old_linux initial
    = (Raise (Exn IndexError "list index out of range"), initial) /\
  get_uptime (fun s => if String.eqb s "35017.22" then Ok 35017.22%float
                       else Raise (Exn ValueError s))
             no_answers proc_linux initial
    = (Ok (PyFloat 35017.22), initial).
Proof.
  split.
  - exact (proj1 (proj2 (X10_uptime_linux_first_word _ no_answers old_linux initial eq_refl)
                    _ eq_refl) eq_refl).
  - exact (proj2 (proj2 (X10_uptime_linux_first_word _ no_answers proc_linux initial eq_refl)
                    _ eq_refl) eq_refl).
Defined.

(** ** The monotonic clock *)

Lemma CDLL_loaded (h : host) (name : string) (st : state) :
  dlopen h name = Loaded ->
  CDLL h name st
    = (Ok tt, State (stdout st) (native_calls st) (cdll_calls st ++ [name]) (draws st)).
Proof. intros H. unfold CDLL. rewrite H. reflexivity. Qed.

Lemma CDLL_failed (h : host) (name msg : string) (st : state) :
  dlopen h name = LoadError msg ->
  CDLL h name st
    = (Raise (Exn OSError msg),
       State (stdout st) (native_calls st) (cdll_calls st ++ [name]) (draws st)).
Proof. intros H. unfold CDLL. rewrite H. reflexivity. Qed.

(** Away from Windows, with the libraries loaded, the result is computed
    from the clock reading. *)
Lemma get_current_time_ms_unix (sv : services) (h : host) (st : state) :
  startswith (sys_platform h) "win32" = false ->
  dlopen h "libc.so.6" = Loaded ->
  (startswith (sys_platform h) "darwin" = true -> dlopen h "libc.dylib" = Loaded) ->
  fst (get_current_time_ms sv h st) =
    Ok (PyInt (match clock_gettime sv 1 with
               | Some (tv_sec, tv_nsec) => tv_sec * 1000 + tv_nsec / 1000000
               | None => 0
               end)).
Proof.
  intros Hw Hso Hdy. unfold get_current_time_ms. rewrite Hw.
  rewrite (mbind_ok _ _ st _ tt (CDLL_loaded h "libc.so.6" st Hso)).
  destruct (startswith (sys_platform h) "darwin").
  - rewrite (mbind_ok _ _ _ _ tt (CDLL_loaded h "libc.dylib" _ (Hdy eq_refl))).
    destruct (clock_gettime sv 1) as [[sec nsec] |]; reflexivity.
  - unfold mbind at 1, ret at 1.
    destruct (clock_gettime sv 1) as [[sec nsec] |]; reflexivity.
Qed.

(** X11. Away from Windows [get_current_time_ms] loads [libc.so.6] first,
    on Darwin too. If that load fails the call raises its [OSError] at
    once: [libc.dylib] is not tried and the clock is not read. *)
Theorem X11_time_ms_needs_libc_so_6 (sv : services) (h : host) (st : state) (msg : string) :
  startswith (sys_platform h) "win32" = false ->
  dlopen h "libc.so.6" = LoadError msg ->
  get_current_time_ms sv h st
    = (Raise (Exn OSError msg),
       State (stdout st) (native_calls st) (cdll_calls st ++ ["libc.so.6"]) (draws st)).
Proof.
  intros Hw Hso. unfold get_current_time_ms. rewrite Hw.
  apply mbind_raise. exact (CDLL_failed h "libc.so.6" msg st Hso).
Qed.

(** On a Mac, where only [libc.dylib] exists, the call fails. *)
Lemma X11_witness :
  get_current_time_ms sample_services macos initial
    = (Raise (Exn OSError "libc.so.6: cannot open shared object file"),
       State [] [] ["libc.so.6"] 0).
Proof.
  exact (X11_time_ms_needs_libc_so_6 sample_services macos initial _ eq_refl eq_refl).
Defined.

(** X12. Away from Windows, once the libraries are loaded,
    [get_current_time_ms] turns a clock reading of [tv_sec] seconds and
    [tv_nsec] nanoseconds (with [0 <= tv_nsec < 10^9]) into whole
    milliseconds: the result [ms] satisfies
    [tv_sec * 1000 <= ms <= tv_sec * 1000 + 999], and a later reading never
    gives a smaller result. *)
Theorem X12_time_ms_whole_milliseconds
    (sv sv' : services) (h : host) (st st' : state) (sec nsec sec' nsec' : Z) :
  startswith (sys_platform h) "win32" = false ->
  dlopen h "libc.so.6" = Loaded ->
  (startswith (sys_platform h) "darwin" = true -> dlopen h "libc.dylib" = Loaded) ->
  clock_gettime sv 1 = Some (sec, nsec) -> 0 <= nsec < 10 ^ 9 ->
  clock_gettime sv' 1 = Some (sec', nsec') -> 0 <= nsec' < 10 ^ 9 ->
  exists ms ms',
    fst (get_current_time_ms sv h st) = Ok (PyInt ms) /\
    fst (get_current_time_ms sv' h st') = Ok (PyInt ms') /\
    sec * 1000 <= ms <= sec * 1000 + 999 /\
    (sec < sec' \/ sec = sec' /\ nsec <= nsec' -> ms <= ms').
Proof.
  intros Hw Hso Hdy Hc Hn Hc' Hn'.
  exists (sec * 1000 + nsec / 1000000), (sec' * 1000 + nsec' / 1000000).
  rewrite (get_current_time_ms_unix sv h st Hw Hso Hdy), Hc.
  rewrite (get_current_time_ms_unix sv' h st' Hw Hso Hdy), Hc'.
  split; [reflexivity | split; [reflexivity |]].
  assert (Hd : 0 <= nsec / 1000000 <= 999).
  { split; [apply Z.div_pos; lia |].
    apply Z.lt_succ_r. apply Z.div_lt_upper_bound; lia. }
  assert (Hd' : 0 <= nsec' / 1000000 <= 999).
  { split; [apply Z.div_pos; lia |].
    apply Z.lt_succ_r. apply Z.div_lt_upper_bound; lia. }
  split; [lia |].
  intros [Hlt | [-> Hle]]; [lia |].
  pose proof (Z.div_le_mono nsec nsec' 1000000 ltac:(lia) Hle). lia.
Qed.

Lemma X12_witness :
  exists ms ms',
    fst (get_current_time_ms sample_services glibc_linux initial) = Ok (PyInt ms) /\
    fst (get_current_time_ms sample_services glibc_linux initial) = Ok (PyInt ms') /\
    5000 * 1000 <= ms <= 5000 * 1000 + 999 /\
    (5000 < 5000 \/ 5000 = 5000 /\ 250000000 <= 250000000 -> ms <= ms').
Proof.
  apply (X12_time_ms_whole_milliseconds sample_services sample_services glibc_linux
           initial initial 5000 250000000 5000 250000000);
    try reflexivity; try discriminate; try (split; [discriminate | reflexivity]).
Defined.

(** X13. On Windows [get_current_time_ms] returns the tick count through
    a C [int]: the result always lies in [-2^31, 2^31); it is the tick
    count itself while that is below 2^31 milliseconds (about 24.8 days
    of uptime), and the tick count minus 2^32, a negative number, from
    2^31 up to 2^32. No library is loaded and nothing is printed. *)
Theorem X13_time_ms_windows_is_c_int (sv : services) (h : host) (st : state) :
  startswith (sys_platform h) "win32" = true ->
  exists ms,
    get_current_time_ms sv h st = (Ok (PyInt ms), st) /\
    - 2 ^ 31 <= ms < 2 ^ 31 /\
    (0 <= GetTickCount64 sv < 2 ^ 31 -> ms = GetTickCount64 sv) /\
    (2 ^ 31 <= GetTickCount64 sv < 2 ^ 32 -> ms = GetTickCount64 sv - 2 ^ 32 /\ ms < 0).
Proof.
  intros Hw. exists (c_int_result (GetTickCount64 sv)).
  unfold get_current_time_ms. rewrite Hw. split; [reflexivity |].
  unfold c_int_result.
  pose proof (Z.mod_pos_bound (GetTickCount64 sv + 2 ^ 31) (2 ^ 32) ltac:(lia)) as Hb.
  split; [lia |]. split.
  - intros Hr. rewrite Z.mod_small by lia. lia.
  - intros Hr.
    replace (GetTickCount64 sv + 2 ^ 31)
      with (GetTickCount64 sv - 2 ^ 31 + 1 * 2 ^ 32) by lia.
    rewrite Z.mod_add by lia. rewrite Z.mod_small by lia. lia.
Qed.

Lemma X13_witness :
  exists ms,
    get_current_time_ms sample_services windows initial = (Ok (PyInt ms), initial) /\
    - 2 ^ 31 <= ms < 2 ^ 31 /\
    (0 <= GetTickCount64 sample_services < 2 ^ 31 -> ms = GetTickCount64 sample_services) /\
    (2 ^ 31 <= GetTickCount64 sample_services < 2 ^ 32 ->
     ms = GetTickCount64 sample_services - 2 ^ 32 /\ ms < 0).
Proof. exact (X13_time_ms_windows_is_c_int sample_services windows initial eq_refl). Defined.

(** ** The queries are quiet *)

Lemma quiet_ret {A} (a : A) : quiet (ret a).
Proof. intros st. repeat split. Qed.

Lemma quiet_raise {A} (e : exn) : quiet (@raise A e).
Proof. intros st. repeat split. Qed.

Lemma quiet_lift {A} (r : result A) : quiet (lift r).
Proof. intros st. repeat split. Qed.

Lemma quiet_CDLL (h : host) (name : string) : quiet (CDLL h name).
Proof. intros st. unfold CDLL. destruct (dlopen h name); repeat split. Qed.

Lemma quiet_global (name : string) : quiet (global name).
Proof.
  unfold global. destruct (existsb _ _); [apply quiet_ret | apply quiet_raise].
Qed.

Lemma quiet_mbind {A B} (m : M A) (k : A -> M B) :
  quiet m -> (forall a, quiet (k a)) -> quiet (mbind m k).
Proof.
  intros Hm Hk st. unfold mbind. specialize (Hm st).
  destruct (m st) as [[a | e] st']; cbn [snd] in Hm.
  - destruct (Hk a st') as (H1 & H2 & H3). destruct Hm as (G1 & G2 & G3).
    repeat split; congruence.
  - exact Hm.
Qed.

Ltac quiet_step :=
  first
    [ apply quiet_ret | apply quiet_raise | apply quiet_lift
    | apply quiet_CDLL | apply quiet_global
    | apply quiet_mbind; [| intros ?]
    | match goal with
      | |- quiet (if ?c then _ else _) => destruct c
      | |- quiet (match ?x with _ => _ end) => destruct x
      end ].

Lemma quiet_first_MemAvailable (lines : list string) : quiet (first_MemAvailable lines).
Proof.
  induction lines as [| line rest IH]; cbn [first_MemAvailable].
  - apply quiet_ret.
  - destruct (startswith line "MemAvailable:"); [repeat quiet_step | exact IH].
Qed.

(** X14. No query prints, calls the native wait or draws a random number,
    whether it returns or raises: [get_cpu_count], [get_uptime],
    [get_free_memory], [get_username], [get_platform], [get_pid] and
    [get_current_time_ms] leave standard output, the list of native waits
    and the random generator as they found them. *)
Theorem X14_queries_are_quiet
    (float_of_str : string -> result float) (u : unreached) (sv : services) (h : host) :
  quiet (get_cpu_count h) /\
  quiet (get_uptime float_of_str u h) /\
  quiet (get_free_memory u h) /\
  quiet (get_username h) /\
  quiet (get_platform h) /\
  quiet (get_pid sv h) /\
  quiet (get_current_time_ms sv h).
Proof.
  repeat apply conj.
  - unfold get_cpu_count. repeat quiet_step.
  - unfold get_uptime. repeat quiet_step.
  - unfold get_free_memory. repeat quiet_step. apply quiet_first_MemAvailable.
  - unfold get_username. repeat quiet_step.
  - unfold get_platform. repeat quiet_step.
  - unfold get_pid. repeat quiet_step.
  - unfold get_current_time_ms. repeat quiet_step.
Qed.

(** ** Degenerate ranges *)

(** [x + (x - x) * r] is [x] for every number [x] other than negative
    zero and every draw [r] in [0, 1). *)
Lemma uniform_degenerate (x r : float) :
  unit_interval r -> is_number x = true -> is_neg_zero x = false ->
  (x + (x - x) * r)%float = x.
Proof.
  intros [Hle Hlt] Hx Hnz. rewrite leb_spec in Hle. rewrite ltb_spec in Hlt.
  change (Prim2SF 0) with (S754_zero false) in Hle.
  unfold is_number, PyNum.value in Hx. unfold is_neg_zero in Hnz.
  apply Prim2SF_inj. rewrite add_spec, mul_spec, sub_spec.
  destruct (Prim2SF x) as [sx | sx | | sx mx ex]; try discriminate.
  - destruct sx; [discriminate |].
    destruct (Prim2SF r) as [sr | [|] | | sr mr er].
    + destruct sr; reflexivity.
    + vm_compute in Hle. discriminate.
    + vm_compute in Hlt. discriminate.
    + vm_compute in Hle. discriminate.
    + destruct sr; reflexivity.
  - cbn [SF64sub SFsub]. rewrite Z.sub_diag. cbn [binary_normalize].
    destruct (Prim2SF r) as [sr | [|] | | sr mr er].
    + reflexivity.
    + vm_compute in Hle. discriminate.
    + vm_compute in Hlt. discriminate.
    + vm_compute in Hle. discriminate.
    + reflexivity.
Qed.

(** X15. A degenerate range draws its bound. For every duration [x] that
    is a number other than negative zero, and every draw in [0, 1),
    [random.uniform(x, x)] is exactly [x], and [get_random_delay(x, x)]
    has the outcome of [seconds(x)], prints the same text and makes the
    same native wait; it takes one draw from the generator. *)
Theorem X15_degenerate_range_draws_its_bound
    (h : host) (b : binding) (x : float) (st : state) :
  unit_interval (random_tape h (draws st)) ->
  is_number x = true ->
  is_neg_zero x = false ->
  fst (random_uniform h x x st) = Ok x /\
  fst (get_random_delay h b x x st) = fst (seconds b x st) /\
  stdout (snd (get_random_delay h b x x st)) = stdout (snd (seconds b x st)) /\
  native_calls (snd (get_random_delay h b x x st)) = native_calls (snd (seconds b x st)) /\
  draws (snd (get_random_delay h b x x st)) = S (draws st).
Proof.
  intros Hr Hx Hnz. split.
  - unfold random_uniform, mbind, random_random, ret. cbn [fst].
    rewrite (uniform_degenerate _ _ Hr Hx Hnz). reflexivity.
  - rewrite get_random_delay_run, (uniform_degenerate _ _ Hr Hx Hnz). unfold seconds.
    destruct (_sleep_frame_draws b x st (S (draws st))) as (H1 & H2 & H3 & _ & H5).
    repeat split; assumption.
Qed.

Lemma X15_witness :
  fst (random_uniform glibc_linux 2.5 2.5 initial) = Ok 2.5%float /\
  native_calls (snd (get_random_delay glibc_linux unix_binding 2.5 2.5 initial))
    = native_calls (snd (seconds unix_binding 2.5 initial)).
Proof.
  destruct (X15_degenerate_range_draws_its_bound glibc_linux unix_binding 2.5 initial
              (conj eq_refl eq_refl) eq_refl eq_refl) as (H1 & _ & _ & H2 & _).
  split; [exact H1 | exact H2].
Defined.

(** ** Environment variables *)

(** X16. [get_username] never raises and has no effect. It reads
    [USERNAME] on Windows and [USER] everywhere else, whatever the other
    variable holds: a set variable is returned as it is (an empty value
    as the empty string), an unset one gives [None]. *)
Theorem X16_username_reads_one_variable (h : host) (st : state) :
  let name := if startswith (sys_platform h) "win32" then "USERNAME" else "USER" in
  (forall value, environ h name = Some value ->
                 get_username h st = (Ok (PyStr value), st)) /\
  (environ h name = None -> get_username h st = (Ok PyNone, st)) /\
  (forall v, fst (get_username h st) = Ok v ->
             v = PyNone <-> environ h name = None).
Proof.
  intros name. rewrite get_username_never_raises. fold name.
  split; [| split].
  - intros value ->. reflexivity.
  - intros ->. reflexivity.
  - intros v. cbn [fst]. destruct (environ h name); intros [= <-]; split;
      intros H; try discriminate; reflexivity.
Qed.

Lemma X16_witness : get_username proc_linux initial = (Ok (PyStr "alice"), initial).
Proof.
  exact (proj1 (X16_username_reads_one_variable proc_linux initial) "alice" eq_refl).
Defined.

(** ** Names the module never binds *)

Lemma family_darwin (h : host) :
  family_of (sys_platform h) = Darwin ->
  startswith (sys_platform h) "win32" = false /\
  startswith (sys_platform h) "linux" = false /\
  startswith (sys_platform h) "darwin" = true.
Proof.
  intros Hf. pose proof (family_of_cases (sys_platform h)) as Hc.
  rewrite Hf in Hc. exact Hc.
Qed.

(** X18. On every Windows host, whatever the environment, [get_uptime]
    raises [NameError] for [time] and [get_free_memory] raises
    [NameError] for [MEMORYSTATUSEX], before any effect: neither ever
    returns a value there. *)
Theorem X18_windows_queries_raise_NameError
    (float_of_str : string -> result float) (u : unreached) (h : host) (st : state) :
  family_of (sys_platform h) = Windows ->
  get_uptime float_of_str u h st
    = (Raise (Exn NameError "name 'time' is not defined"), st) /\
  get_free_memory u h st
    = (Raise (Exn NameError "name 'MEMORYSTATUSEX' is not defined"), st) /\
  (forall v, fst (get_uptime float_of_str u h st) <> Ok v) /\
  (forall v, fst (get_free_memory u h st) <> Ok v).
Proof.
  intros Hf.
  rewrite (get_uptime_windows float_of_str u h st Hf), (get_free_memory_windows u h st Hf).
  repeat split; discriminate.
Qed.

Lemma X18_witness :
  get_uptime (fun s => Raise (Exn ValueError s)) no_answers windows initial
    = (Raise (Exn NameError "name 'time' is not defined"), initial).
Proof.
  exact (proj1 (X18_windows_queries_raise_NameError _ no_answers windows initial eq_refl)).
Defined.

(** X19. On every Darwin host each of the three native queries first
    loads [libc.dylib] and raises its [OSError] if that fails. Once it is
    loaded: [get_free_memory] raises [NameError] for [vm_statistics];
    [get_uptime] returns [None] when the sysctl query fails and raises
    [NameError] for [time] when it succeeds, so it never returns a
    number; [get_cpu_count] returns the value the sysctl query stored, or
    0 when the query fails. *)
Theorem X19_darwin_queries
    (float_of_str : string -> result float) (u : unreached) (h : host) (st : state) :
  family_of (sys_platform h) = Darwin ->
  (forall msg, dlopen h "libc.dylib" = LoadError msg ->
     fst (get_free_memory u h st) = Raise (Exn OSError msg) /\
     fst (get_uptime float_of_str u h st) = Raise (Exn OSError msg) /\
     fst (get_cpu_count h st) = Raise (Exn OSError msg)) /\
  (dlopen h "libc.dylib" = Loaded ->
     fst (get_free_memory u h st)
       = Raise (Exn NameError "name 'vm_statistics' is not defined") /\
     fst (get_uptime float_of_str u h st)
       = match sysctlbyname h "kern.boottime" with
         | Some _ => Raise (Exn NameError "name 'time' is not defined")
         | None => Ok PyNone
         end /\
     fst (get_cpu_count h st)
       = Ok (PyInt (match sysctlbyname h "hw.ncpu" with Some v => v | None => 0 end))).
Proof.
  intros Hf. destruct (family_darwin h Hf) as (Hw & Hl & Hd). split.
  - intros msg Hfail.
    unfold get_free_memory, get_uptime, get_cpu_count. rewrite Hw, Hl, Hd.
    rewrite !(mbind_raise _ _ st _ _ (CDLL_failed h "libc.dylib" msg st Hfail)).
    repeat split.
  - intros Hload. split; [| split].
    + unfold get_free_memory. rewrite Hl, Hd.
      rewrite (mbind_ok _ _ st _ tt (CDLL_loaded h "libc.dylib" st Hload)). reflexivity.
    + exact (get_uptime_darwin float_of_str u h st Hf Hload).
    + unfold get_cpu_count. rewrite Hw, Hl, Hd.
      rewrite (mbind_ok _ _ st _ tt (CDLL_loaded h "libc.dylib" st Hload)). reflexivity.
Qed.

Lemma X19_witness :
  fst (get_free_memory no_answers macos initial)
    = Raise (Exn NameError "name 'vm_statistics' is not defined") /\
  fst (get_cpu_count macos initial) = Ok (PyInt 0).
Proof.
  destruct (proj2 (X19_darwin_queries (fun s => Raise (Exn ValueError s)) no_answers
                     macos initial eq_refl) eq_refl) as (H1 & _ & H2).
  split; [exact H1 | exact H2].
Defined.

(** ** Where [get_cpu_count] defaults to 1 *)

Lemma no_processor_line_count (lines : list string) :
  (forall line, In line lines -> is_processor_line line = false) ->
  filter is_processor_line lines = [].
Proof.
  intros H. induction lines as [| line rest IH]; [reflexivity |].
  cbn [filter]. rewrite (H line (or_introl eq_refl)). apply IH.
  intros other Hin. apply H. now right.
Qed.

(** X17. [get_cpu_count] falls back to 1 in two situations only: on a
    platform outside the three families, and on Windows when
    [NUMBER_OF_PROCESSORS] is unset. In every other situation where its
    source gives no count it does not answer 1: on Windows a set variable
    is returned as [int()] of its value, whatever integer that is, and a
    value that is not an integer literal raises [ValueError]; on Linux an
    unreadable [/proc/cpuinfo] raises and one without a [processor] line
    gives 0; on Darwin a failed load of [libc.dylib] raises and a failed
    sysctl query gives 0. *)
Theorem X17_cpu_count_defaults (h : host) (st : state) :
  match family_of (sys_platform h) with
  | Unsupported => get_cpu_count h st = (Ok (PyInt 1), st)
  | Windows =>
      (environ h "NUMBER_OF_PROCESSORS" = None ->
       get_cpu_count h st = (Ok (PyInt 1), st)) /\
      (forall value n,
         environ h "NUMBER_OF_PROCESSORS" = Some value ->
         PyStr.int_of_str value = Ok n ->
         get_cpu_count h st = (Ok (PyInt n), st)) /\
      (forall value e,
         environ h "NUMBER_OF_PROCESSORS" = Some value ->
         PyStr.int_of_str value = Raise e ->
         get_cpu_count h st = (Raise e, st) /\ exn_class e = ValueError)
  | Linux =>
      (forall e, file_lines h "/proc/cpuinfo" = Raise e ->
                 get_cpu_count h st = (Raise e, st)) /\
      (forall lines,
         file_lines h "/proc/cpuinfo" = Ok lines ->
         (forall line, In line lines -> is_processor_line line = false) ->
         get_cpu_count h st = (Ok (PyInt 0), st))
  | Darwin =>
      (forall msg, dlopen h "libc.dylib" = LoadError msg ->
                   fst (get_cpu_count h st) = Raise (Exn OSError msg)) /\
      (dlopen h "libc.dylib" = Loaded ->
       sysctlbyname h "hw.ncpu" = None ->
       fst (get_cpu_count h st) = Ok (PyInt 0))
  end.
Proof.
  pose proof (family_of_cases (sys_platform h)) as Hc.
  destruct (family_of (sys_platform h)).
  - unfold get_cpu_count. rewrite Hc. split; [| split].
    + intros ->. reflexivity.
    + intros value n -> Hn. rewrite Hn. reflexivity.
    + intros value e -> He. rewrite He. split; [reflexivity |].
      unfold PyStr.int_of_str in He.
      destruct (match PyStr.strip value with
                | String "+"%char rest => PyStr.digits 0 false rest
                | String "-"%char rest => option_map Z.opp (PyStr.digits 0 false rest)
                | _ => PyStr.digits 0 false (PyStr.strip value)
                end); [discriminate |].
      injection He as <-. reflexivity.
  - destruct Hc as (Hw & Hl & _). split.
    + intros e He. unfold get_cpu_count. rewrite Hw, Hl, He. reflexivity.
    + intros lines Hlines Hnone.
      rewrite (get_cpu_count_linux h st lines Hl Hlines), count_processor_lines.
      rewrite (no_processor_line_count lines Hnone). reflexivity.
  - destruct Hc as (Hw & Hl & Hd). split.
    + intros msg Hfail. unfold get_cpu_count. rewrite Hw, Hl, Hd.
      rewrite (mbind_raise _ _ st _ _ (CDLL_failed h "libc.dylib" msg st Hfail)).
      reflexivity.
    + intros Hload Hnone. unfold get_cpu_count. rewrite Hw, Hl, Hd.
      rewrite (mbind_ok _ _ st _ tt (CDLL_loaded h "libc.dylib" st Hload)), Hnone.
      reflexivity.
  - destruct Hc as (Hw & Hl & Hd). unfold get_cpu_count. rewrite Hw, Hl, Hd. reflexivity.
Qed.

(** Unsupported: 1. Windows with the variable unset: 1. Linux without a
    [processor] line: 0. Darwin with a failing sysctl query: 0. *)
Lemma X17_witness :
  get_cpu_count freebsd initial = (Ok (PyInt 1), initial) /\
  get_cpu_count windows initial = (Ok (PyInt 1), initial) /\
  get_cpu_count arm_board initial = (Ok (PyInt 0), initial) /\
  fst (get_cpu_count macos initial) = Ok (PyInt 0).
Proof.
  repeat apply conj.
  - exact (X17_cpu_count_defaults freebsd initial).
  - exact (proj1 (X17_cpu_count_defaults windows initial) eq_refl).
  - apply (proj2 (X17_cpu_count_defaults arm_board initial) _ eq_refl).
    intros line [<- | [<- | [<- | []]]]; reflexivity.
  - exact (proj2 (X17_cpu_count_defaults macos initial) eq_refl eq_refl).
Defined.
